(** * autopilotTS: ticket lifecycle, worktrees and the autopilot batch

    A shallow embedding of the TypeScript sources

    - [types/index.ts]            (Ticket, TicketStatus, TicketConfig, ProjectConfig)
    - [utils/storage.ts]          (Storage)
    - [utils/config.ts]           (ConfigManager getters)
    - [utils/git.ts]              (GitManager)
    - [utils/copilot-cli.ts]      (CopilotCLI)
    - [utils/copilot.ts]          (CopilotAgent.generateCommitMessage / generateTicketSummary)
    - [agents/TicketResolverCLI.ts]  (TicketResolverCLI.resolve)
    - [commands/index.ts]         (Commands.start / stop / autopilotMode / ...)
    - [web/routes/tickets.ts]     (POST /api/tickets/autopilot)

    Conventions.  JavaScript strings are [string]; [undefined] is [None];
    a [Date] is its millisecond time stamp in [Z].  The ticket store and the
    external world (git, the file system, the Copilot CLI and SDK, the person
    at the keyboard) are explicit: stateful code is written in state-passing
    style, a thrown exception is the [Throw] result. *)

From stdpp Require Import base option list sorting strings gmap.
From Stdlib Require Import ZArith Ascii Lia.

Set Warnings "-abstract-large-number".

Local Open Scope string_scope.
Local Open Scope list_scope.
Local Open Scope Z_scope.
Local Open Scope nat_scope.

(* ===================================================================== *)
(** ** types/index.ts *)
(* ===================================================================== *)

Inductive TicketStatus :=
| PENDING | BRANCHING | WORKING | STOPPED | CLOSED | ERROR.

#[global] Instance TicketStatus_eq_dec : EqDecision TicketStatus.
Proof. solve_decision. Defined.

Record Ticket := mkTicket {
  ticket_id : string;
  ticket_name : string;
  ticket_description : string;
  ticket_status : TicketStatus;
  ticket_createdAt : Z;
  ticket_startedAt : option Z;
  ticket_stoppedAt : option Z;
  ticket_closedAt : option Z;
  ticket_branch : option string;
  ticket_error : option string;
  ticket_summary : option string
}.

Record TicketConfig := mkTicketConfig {
  tickets : list Ticket;
  lastId : nat
}.

Record ProjectConfig := mkProjectConfig {
  cfg_debug : option bool;
  cfg_baseRepositoryPath : option string;
  cfg_automationPath : option string;
  cfg_baseBranch : option string;
  cfg_copilotModel : option string
}.

(** [Partial<Ticket>]: the keys an update object carries. *)
Record TicketUpdates := mkUpdates {
  upd_description : option string;
  upd_status : option TicketStatus;
  upd_startedAt : option Z;
  upd_stoppedAt : option Z;
  upd_closedAt : option Z;
  upd_branch : option string;
  upd_error : option string;
  upd_summary : option string
}.

(** The object spread [{ ...t, ...updates }]: a key present in [updates]
    replaces the ticket's, every other key is kept. *)
Definition spread (t : Ticket) (u : TicketUpdates) : Ticket :=
  {| ticket_id := ticket_id t;
     ticket_name := ticket_name t;
     ticket_description := default (ticket_description t) (upd_description u);
     ticket_status := default (ticket_status t) (upd_status u);
     ticket_createdAt := ticket_createdAt t;
     ticket_startedAt := from_option Some (ticket_startedAt t) (upd_startedAt u);
     ticket_stoppedAt := from_option Some (ticket_stoppedAt t) (upd_stoppedAt u);
     ticket_closedAt := from_option Some (ticket_closedAt t) (upd_closedAt u);
     ticket_branch := from_option Some (ticket_branch t) (upd_branch u);
     ticket_error := from_option Some (ticket_error t) (upd_error u);
     ticket_summary := from_option Some (ticket_summary t) (upd_summary u) |}.

(* ===================================================================== *)
(** ** JavaScript helpers *)
(* ===================================================================== *)

(** Truthiness of a [string | undefined]: [undefined] and the empty string
    are falsy. *)
Definition truthy (o : option string) : bool :=
  match o with
  | Some s => negb (bool_decide (s = ""))
  | None => false
  end.

(** [a || b] on a possibly undefined string with a string default. *)
Definition or_else (o : option string) (d : string) : string :=
  match o with
  | Some s => if bool_decide (s = "") then d else s
  | None => d
  end.

(** [String.prototype.toLowerCase], on the ASCII letters (other code units
    are left as they are). *)
Definition lower_ascii (c : ascii) : ascii :=
  let n := nat_of_ascii c in
  if (65 <=? n)%nat && (n <=? 90)%nat then ascii_of_nat (n + 32) else c.

Fixpoint toLowerCase (s : string) : string :=
  match s with
  | EmptyString => EmptyString
  | String c r => String (lower_ascii c) (toLowerCase r)
  end.

(** What a [throw] carries: an [Error] with its message, or a value that is
    not an [Error] instance. *)
Inductive exn :=
| JsError (message : string)
| NonError.

(** [error instanceof Error ? error.message : 'Unknown error'] *)
Definition error_message (e : exn) : string :=
  match e with
  | JsError m => m
  | NonError => "Unknown error"
  end.

Inductive Res (A : Type) :=
| Ok (a : A)
| Throw (e : exn).
Arguments Ok {A} a.
Arguments Throw {A} e.

(* ===================================================================== *)
(** ** utils/storage.ts *)
(* ===================================================================== *)

Module Storage.

(** The file [~/.autopilot/tickets.json]: absent, or holding a parsed
    [TicketConfig]. *)
Definition File := option TicketConfig.

Definition initialConfig : TicketConfig := mkTicketConfig [] 0.

Definition ensureConfigExists (f : File) : File :=
  match f with
  | None => Some initialConfig
  | Some c => Some c
  end.

(** [getConfig] reads the file after making sure it exists; the file it
    leaves behind is the second component. *)
Definition getConfig (f : File) : TicketConfig * File :=
  match ensureConfigExists f with
  | Some c => (c, Some c)
  | None => (initialConfig, Some initialConfig)
  end.

Definition saveConfig (c : TicketConfig) (_ : File) : File := Some c.

Definition getAllTickets (f : File) : list Ticket * File :=
  let '(c, f') := getConfig f in (tickets c, f').

Definition matches_idOrName (idOrName : string) (t : Ticket) : Prop :=
  toLowerCase (ticket_id t) = toLowerCase idOrName ∨
  toLowerCase (ticket_name t) = toLowerCase idOrName.

#[global] Instance matches_idOrName_dec s t : Decision (matches_idOrName s t).
Proof. unfold matches_idOrName. apply _. Defined.

Definition getTicket (idOrName : string) (f : File) : option Ticket * File :=
  let '(ts, f') := getAllTickets f in
  (snd <$> list_find (matches_idOrName idOrName) ts, f').

Definition createTicket (ticketId description : string) (now : Z) (f : File)
  : Ticket * File :=
  let '(c, f') := getConfig f in
  let ticket :=
    mkTicket ticketId ticketId description PENDING now
             None None None None None None in
  (ticket, saveConfig (mkTicketConfig (tickets c ++ [ticket]) (lastId c)) f').

(** [config.tickets.findIndex(t => t.id === id)], [None] standing for -1. *)
Definition findIndex (id : string) (ts : list Ticket) : option nat :=
  fst <$> list_find (λ t, ticket_id t = id) ts.

Definition updateTicket (id : string) (updates : TicketUpdates) (f : File) : File :=
  let '(c, f') := getConfig f in
  match findIndex id (tickets c) with
  | Some index =>
      match tickets c !! index with
      | Some t =>
          saveConfig
            (mkTicketConfig (<[index := spread t updates]> (tickets c)) (lastId c)) f'
      | None => f'
      end
  | None => f'
  end.

Definition deleteTicket (id : string) (f : File) : bool * File :=
  let '(c, f') := getConfig f in
  match findIndex id (tickets c) with
  | Some index =>
      (true, saveConfig (mkTicketConfig (delete index (tickets c)) (lastId c)) f')
  | None => (false, f')
  end.

(** The tickets a reader of the file sees. *)
Definition contents (f : File) : list Ticket := fst (getAllTickets f).

End Storage.

(* ===================================================================== *)
(** ** The external world *)
(* ===================================================================== *)

(** The [simple-git] calls the sources make. *)
Inductive GitCmd :=
| GitStatus
| GitCheckout (branch : string)
| GitPull (remote branch : string)
| GitCheckoutBranch (name start : string)
| GitAdd (what : string)
| GitCommit (message : string)
| GitBranch (name start : string)
| GitWorktreeAdd (path branch : string)
| GitWorktreeRemoveForce (path : string)
| GitDeleteLocalBranch (name : string)
| GitDiffHead.

(** What is sent to the Copilot SDK: the variable parts of the two prompts. *)
Inductive SdkRequest :=
| CommitMessagePrompt (diff : string)
| SummaryPrompt (ticketId diff : string) (commitMessage : option string).

(** [CopilotCLIResult] *)
Record CopilotCLIResult := mkCLIResult {
  cli_success : bool;
  cli_output : string;
  cli_error : option string
}.

(** Operations on the outside world, in the order they were performed. *)
Inductive Effect :=
| EGit (dir : string) (cmd : GitCmd)
| ERmSync (path : string)
| ECopilotCLI (workingDir ticketId : string)
| ESdk (req : SdkRequest)
| EPrompt (question : string).

(** The points of an autopilot run at which the event loop can serve
    another request: the awaits of the pre-provisioning phase, and the await
    of the resolution of the ticket at position [i] (from 0). *)
Inductive Phase :=
| Provisioning
| Resolving (i : nat).

(** Everything the code cannot decide by itself.  The answers may depend on
    what has been done so far. *)
Record Env := mkEnv {
  config : ProjectConfig;                 (* ~/.autopilot/config.json *)
  cwd : string;                           (* process.cwd() *)
  path_join : string → string → string;   (* path.join *)
  clock : list Effect → Z;                (* Date.now(), new Date() *)
  cli_installed : list Effect → bool;     (* `copilot --version` exits with 0 *)
  sdk_constructs : bool;                  (* new CopilotAgent() does not throw *)
  git_fails : list Effect → string → GitCmd → option exn;
  git_status_files : list Effect → string → nat;   (* status.files.length *)
  git_diff_text : list Effect → string → string;   (* git diff HEAD *)
  rm_fails : list Effect → string → option exn;    (* fs.rmSync *)
  agent_run : list Effect → string → Ticket → string → Res CopilotCLIResult;
  sdk_session : list Effect → SdkRequest → Res string;
  confirm_answer : list Effect → bool;             (* inquirer confirm *)
  input_answer : list Effect → string → string;    (* inquirer input *)
  stop_pressed : Phase → bool            (* stopAutopilot() called meanwhile *)
}.

(** The part of the world the git layer and the resolver act on: which
    directories exist, and what has been done. *)
Record Ext := mkExt {
  paths : gset string;
  trace : list Effect
}.

(** State and exceptions. *)
Definition G (A : Type) : Type := Ext → Res A * Ext.

#[global] Instance G_ret : MRet G := λ A a x, (Ok a, x).
#[global] Instance G_bind : MBind G := λ A B f m x,
  match m x with
  | (Ok a, x') => f a x'
  | (Throw e, x') => (Throw e, x')
  end.

Definition throw {A} (e : exn) : G A := λ x, (Throw e, x).

(** [try { m } catch (error) { h error }] *)
Definition try_catch {A} (m : G A) (h : exn → G A) : G A := λ x,
  match m x with
  | (Ok a, x') => (Ok a, x')
  | (Throw e, x') => h e x'
  end.

Definition perform (e : Effect) : G unit := λ x,
  (Ok tt, mkExt (paths x) (trace x ++ [e])).

Definition history : G (list Effect) := λ x, (Ok (trace x), x).

Definition set_paths (f : gset string → gset string) : G unit := λ x,
  (Ok tt, mkExt (f (paths x)) (trace x)).

(** [fs.existsSync] *)
Definition existsSync (p : string) : G bool := λ x,
  (Ok (bool_decide (p ∈ paths x)), x).

Section World.

Variable E : Env.

(** A git command in [dir]: it fails with the exception the world chooses,
    or succeeds; adding a worktree creates its directory, removing it
    deletes the directory. *)
Definition git (dir : string) (cmd : GitCmd) : G unit :=
  h ← history;
  perform (EGit dir cmd);;
  match git_fails E h dir cmd with
  | Some e => throw e
  | None =>
      match cmd with
      | GitWorktreeAdd p _ => set_paths (λ s, {[p]} ∪ s)
      | GitWorktreeRemoveForce p => set_paths (λ s, s ∖ {[p]})
      | _ => mret tt
      end
  end.

(** [(await git.status()).files.length] *)
Definition git_status (dir : string) : G nat :=
  h ← history;
  git dir GitStatus;;
  mret (git_status_files E h dir).

(** [fs.rmSync(p, { recursive: true, force: true })] *)
Definition rmSync (p : string) : G unit :=
  h ← history;
  perform (ERmSync p);;
  match rm_fails E h p with
  | Some e => throw e
  | None => set_paths (λ s, s ∖ {[p]})
  end.

(* --------------------------------------------------------------------- *)
(** *** utils/config.ts *)

Definition getBaseRepositoryPath : option string := cfg_baseRepositoryPath (config E).
Definition getAutomationPath : option string := cfg_automationPath (config E).
Definition getBaseBranch : string := or_else (cfg_baseBranch (config E)) "develop".
Definition getCopilotModel : string := or_else (cfg_copilotModel (config E)) "gpt-4o".


(* --------------------------------------------------------------------- *)
(** *** utils/git.ts: GitManager

    [this.git] works in [process.cwd()]; [this.baseRepoGit || simpleGit(baseRepoPath)]
    works in the configured base repository. *)

Definition isGitRepo : G bool :=
  try_catch (git_status (cwd E);; mret true) (λ _, mret false).

Definition getCurrentBranch : G unit := git_status (cwd E);; mret tt.

Definition pullDevelop : G unit :=
  let baseBranch := getBaseBranch in
  getCurrentBranch;;
  git (cwd E) (GitCheckout baseBranch);;
  git (cwd E) (GitPull "origin" baseBranch).

Definition createBranch (ticketId : string) : G string :=
  let baseBranch := getBaseBranch in
  let branchName := "copilot/" +:+ ticketId in
  git (cwd E) (GitCheckoutBranch branchName baseBranch);;
  mret branchName.

Definition commitChanges (ticketId message : string) : G unit :=
  git (cwd E) (GitAdd ".");;
  git (cwd E) (GitCommit ("[" +:+ ticketId +:+ "] " +:+ message)).

Definition returnToDevelop : G unit := git (cwd E) (GitCheckout getBaseBranch).

Definition hasUncommittedChanges : G bool :=
  n ← git_status (cwd E); mret (bool_decide (0 < n)).

Definition createWorktree (ticketId : string) : G string :=
  let automationPath := getAutomationPath in
  let baseRepoPath := getBaseRepositoryPath in
  if negb (truthy automationPath) then
    throw (JsError "Automation path not configured. Use: autopilot config set automationPath <path>")
  else if negb (truthy baseRepoPath) then
    throw (JsError "Base repository path not configured. Use: autopilot config set baseRepositoryPath <path>")
  else
    let baseBranch := getBaseBranch in
    let branchName := "copilot/" +:+ ticketId in
    let worktreePath := path_join E (default "" automationPath) ticketId in
    let repo := default "" baseRepoPath in
    git repo (GitCheckout baseBranch);;
    git repo (GitPull "origin" baseBranch);;
    try_catch (git repo (GitBranch branchName baseBranch)) (λ _, mret tt);;
    git repo (GitWorktreeAdd worktreePath branchName);;
    mret worktreePath.

Definition removeWorktree (worktreePath : string) : G unit :=
  let baseRepoPath := getBaseRepositoryPath in
  if negb (truthy baseRepoPath) then
    throw (JsError "Base repository path not configured")
  else
    let repo := default "" baseRepoPath in
    try_catch (git repo (GitWorktreeRemoveForce worktreePath))
      (λ _, b ← existsSync worktreePath;
            if (b : bool) then rmSync worktreePath else mret tt).

Definition createTestBranch (ticketId : string) : G string :=
  let baseRepoPath := getBaseRepositoryPath in
  if negb (truthy baseRepoPath) then
    throw (JsError "Base repository path not configured")
  else
    let repo := default "" baseRepoPath in
    let baseBranch := getBaseBranch in
    let copilotBranch := "copilot/" +:+ ticketId in
    let testBranch := "test/copilot/" +:+ ticketId in
    try_catch
      (try_catch (git repo (GitDeleteLocalBranch testBranch)) (λ _, mret tt);;
       git repo (GitCheckoutBranch testBranch copilotBranch);;
       git repo (GitCheckout baseBranch);;
       mret testBranch)
      (λ error, throw error).

Definition default_commit_message (ticketId : string) : string :=
  "[feat]: Implement functionality for " +:+ ticketId +:+ " task".

Definition commitInWorktree (worktreePath ticketId : string)
    (customMessage : option string) : G bool :=
  n ← git_status worktreePath;
  if bool_decide (n = 0) then mret false
  else
    git worktreePath (GitAdd ".");;
    let commitMessage := or_else customMessage (default_commit_message ticketId) in
    git worktreePath (GitCommit commitMessage);;
    mret true.

Definition getWorktreeDiff (worktreePath : string) : G string :=
  try_catch
    (h ← history;
     git worktreePath GitDiffHead;;
     mret (git_diff_text E h worktreePath))
    (λ _, mret "").

Definition worktreeExists (ticketId : string) : G (option string) :=
  let automationPath := getAutomationPath in
  if negb (truthy automationPath) then mret None
  else
    let worktreePath := path_join E (default "" automationPath) ticketId in
    b ← existsSync worktreePath;
    if (b : bool) then mret (Some worktreePath) else mret None.

(* --------------------------------------------------------------------- *)
(** *** utils/copilot-cli.ts: CopilotCLI *)

Definition CopilotCLI_isAvailable : G bool :=
  h ← history; mret (cli_installed E h).

(** [CopilotCLI.resolveTicket]: saves the prompt, spawns the CLI in
    [workingDir] and waits for it to exit. *)
Definition CopilotCLI_resolveTicket (ticket : Ticket) (workingDir model : string)
  : G CopilotCLIResult :=
  h ← history;
  perform (ECopilotCLI workingDir (ticket_id ticket));;
  match agent_run E h workingDir ticket model with
  | Ok r => mret r
  | Throw e => throw e
  end.

(* --------------------------------------------------------------------- *)
(** *** utils/copilot.ts: CopilotAgent

    Text clean-up, on byte strings (white space and quotes are the ASCII ones). *)

Definition is_space (c : ascii) : bool :=
  let n := nat_of_ascii c in
  ((9 <=? n) && (n <=? 13)) || (n =? 32).

Definition is_quote (c : ascii) : bool :=
  let n := nat_of_ascii c in (n =? 34) || (n =? 39).

Fixpoint trimStart (s : string) : string :=
  match s with
  | String c r => if is_space c then trimStart r else s
  | EmptyString => EmptyString
  end.

Fixpoint trimEnd (s : string) : string :=
  match s with
  | EmptyString => EmptyString
  | String c r =>
      match trimEnd r with
      | EmptyString => if is_space c then EmptyString else String c EmptyString
      | r' => String c r'
      end
  end.

Definition trim (s : string) : string := trimEnd (trimStart s).

(** [s.replace(/^["']|["']$/g, '')] *)
Fixpoint strip_last_quote (s : string) : string :=
  match s with
  | EmptyString => EmptyString
  | String c EmptyString => if is_quote c then EmptyString else s
  | String c r => String c (strip_last_quote r)
  end.

Definition strip_quotes (s : string) : string :=
  match s with
  | String c r => if is_quote c then strip_last_quote r else strip_last_quote s
  | EmptyString => EmptyString
  end.

(** [s.split('\n')[0]] *)
Fixpoint first_line (s : string) : string :=
  match s with
  | EmptyString => EmptyString
  | String c r => if (nat_of_ascii c =? 10) then EmptyString else String c (first_line r)
  end.

Definition drop_chars (n : nat) (s : string) : string :=
  String.substring n (String.length s - n) s.

(** [html.replace(/^```html\s*/i, '')], [html.replace(/^```\s*/, '')] and
    [html.replace(/```\s*$/, '')] *)
Definition strip_fence_html (s : string) : string :=
  if bool_decide (toLowerCase (String.substring 0 7 s) = "```html")
  then trimStart (drop_chars 7 s) else s.

Definition strip_fence_start (s : string) : string :=
  if String.prefix "```" s then trimStart (drop_chars 3 s) else s.

Definition strip_fence_end (s : string) : string :=
  let t := trimEnd s in
  let n := String.length t in
  if (3 <=? n) && bool_decide (String.substring (n - 3) 3 t = "```")
  then String.substring 0 (n - 3) t else s.

(** One SDK session: start the client, create the session, send the prompt,
    collect the answer, stop the client.  Any of these may throw. *)
Definition sdk_ask (req : SdkRequest) : G string :=
  h ← history;
  perform (ESdk req);;
  match sdk_session E h req with
  | Ok r => mret r
  | Throw e => throw e
  end.

Definition generateCommitMessage (diff ticketId : string) : G string :=
  try_catch
    (fullResponse ← sdk_ask (CommitMessagePrompt (String.substring 0 3000 diff));
     let message := trim fullResponse in
     let message := strip_quotes message in
     let message := first_line message in
     let message := String.substring 0 60 message in
     mret message)
    (λ _, mret "Implement functionality for task").

(** The report returned when the summary cannot be generated (its markup
    is abridged here). *)
Definition summary_fallback (ticketId : string) (error : exn) : string :=
  let msg := match error with JsError m => m | NonError => "Error desconocido" end in
  "<div><h2>Error al generar resumen</h2><p>No se pudo generar el resumen automatico para el ticket "
    +:+ ticketId +:+ ".</p><p>Error: " +:+ msg +:+ "</p></div>".

Definition generateTicketSummary (ticketId diff : string)
    (commitMessage : option string) : G string :=
  try_catch
    (fullResponse ←
       sdk_ask (SummaryPrompt ticketId (String.substring 0 8000 diff)
                  (if truthy commitMessage then commitMessage else None));
     let html := trim fullResponse in
     let html := strip_fence_html html in
     let html := strip_fence_start html in
     let html := strip_fence_end html in
     let html := trim html in
     mret html)
    (λ error, mret (summary_fallback ticketId error)).

(* --------------------------------------------------------------------- *)
(** *** agents/TicketResolverCLI.ts *)

Record SimplifiedResolverOptions := mkOptions {
  skipValidation : option bool;
  cleanupOnError : option bool;
  existingWorktree : option string
}.

Record SimplifiedResolutionResult := mkResult {
  r_success : bool;
  r_ticket : Ticket;
  r_worktreePath : option string;
  r_hasChanges : bool;
  r_testBranch : option string;
  r_commitMessage : option string;
  r_summary : option string;
  r_error : option string;
  r_duration : Z
}.

(** The constructor's [this.options = { cleanupOnError: true, ...options }]. *)
Definition resolver_options (options : option SimplifiedResolverOptions)
  : SimplifiedResolverOptions :=
  match options with
  | None => mkOptions None (Some true) None
  | Some o =>
      mkOptions (skipValidation o)
                (match cleanupOnError o with Some b => Some b | None => Some true end)
                (existingWorktree o)
  end.

Definition now : G Z := h ← history; mret (clock E h).

Definition validateConfiguration : G unit :=
  available ← CopilotCLI_isAvailable;
  if negb available then
    throw (JsError "GitHub Copilot CLI not found. Install it with: npm install -g @github/copilot-cli")
  else if negb (truthy getAutomationPath) then
    throw (JsError "Automation path not configured. Set it with: autopilot config set automationPath <path>")
  else if negb (truthy getBaseRepositoryPath) then
    throw (JsError "Base repository path not configured. Set it with: autopilot config set baseRepositoryPath <path>")
  else mret tt.

(** Steps 1 and 2 of [resolve]: after them [worktreePath] is assigned. *)
Definition resolve_acquire (ticket : Ticket) (options : SimplifiedResolverOptions)
  : G string :=
  validateConfiguration;;
  if truthy (existingWorktree options)
  then mret (default "" (existingWorktree options))
  else createWorktree (ticket_id ticket).

(** The change detection, commit and summary of step 4; the result is
    [(hasChanges, commitMessage, summaryHTML)]. *)
Definition resolve_commit (ticket : Ticket) (worktreePath : string)
  : G (bool * option string * option string) :=
  let copilotSDK := sdk_constructs E in
  n ← git_status worktreePath;
  if bool_decide (0 < n) then
    diff ← getWorktreeDiff worktreePath;
    commitMessage ←
      (if copilotSDK && truthy (Some diff) then
         try_catch
           (generatedMessage ← generateCommitMessage diff (ticket_id ticket);
            mret (Some ("[feat]: " +:+ generatedMessage +:+ "(" +:+ ticket_id ticket +:+ ")")))
           (λ _, mret None)
       else mret None);
    commitInWorktree worktreePath (ticket_id ticket) commitMessage;;
    summaryHTML ←
      (if copilotSDK && truthy (Some diff) then
         try_catch
           (html ← generateTicketSummary (ticket_id ticket) diff commitMessage;
            mret (Some html))
           (λ _, mret None)
       else mret None);
    mret (true, commitMessage, summaryHTML)
  else mret (false, None, None).

(** Steps 3 to 6 of [resolve], inside the [try] block. *)
Definition resolve_steps (ticket : Ticket) (worktreePath : string) (startTime : Z)
  : G SimplifiedResolutionResult :=
  copilotResult ← CopilotCLI_resolveTicket ticket worktreePath getCopilotModel;
  if negb (cli_success copilotResult) then
    throw (JsError (or_else (cli_error copilotResult) "Copilot CLI failed"))
  else
    '(hasChanges, commitMessage, summaryHTML) ← resolve_commit ticket worktreePath;
    testBranch ←
      (if (hasChanges : bool) then b ← createTestBranch (ticket_id ticket); mret (Some b)
       else mret None);
    t ← now;
    mret (mkResult true ticket (Some worktreePath) hasChanges testBranch
                   commitMessage summaryHTML None (t - startTime)%Z).

(** The [catch] block of [resolve]; [worktreePath] is what the local had
    been assigned when the exception was thrown. *)
Definition resolve_catch (ticket : Ticket) (options : SimplifiedResolverOptions)
    (startTime : Z) (worktreePath : option string) (error : exn)
  : G SimplifiedResolutionResult :=
  t ← now;
  let errorMessage := error_message error in
  (if bool_decide (cleanupOnError options = Some true) && truthy worktreePath then
     try_catch (removeWorktree (default "" worktreePath)) (λ _, mret tt)
   else mret tt);;
  mret (mkResult false ticket worktreePath false None None None
                 (Some errorMessage) (t - startTime)%Z).

Definition resolve (ticket : Ticket) (options : SimplifiedResolverOptions)
  : G SimplifiedResolutionResult :=
  startTime ← now;
  acquired ←
    try_catch (worktreePath ← resolve_acquire ticket options; mret (inr worktreePath))
      (λ error, r ← resolve_catch ticket options startTime None error; mret (inl r));
  match acquired with
  | inl r => mret r
  | inr worktreePath =>
      try_catch (resolve_steps ticket worktreePath startTime)
        (resolve_catch ticket options startTime (Some worktreePath))
  end.

(* --------------------------------------------------------------------- *)
(** *** commands/index.ts: Commands *)

(** [AutopilotTicketResult] and [AutopilotResult] of types/index.ts. *)
Record AutopilotTicketResult := mkTicketResult {
  atr_ticket : Ticket;
  atr_success : bool;
  atr_duration : Z;
  atr_error : option string;
  atr_summary : option string
}.

Record AutopilotResult := mkAutopilotResult {
  completed : list AutopilotTicketResult;
  failed : list AutopilotTicketResult;
  totalDuration : Z;
  cancelled : bool
}.

(** The update objects handed to the callback, by their [type]. *)
Inductive AutopilotUpdate :=
| U_no_tickets
| U_started (total : nat) (tickets : list (string * string))
| U_processing (current total : nat) (ticket : string * string)
| U_ticket_completed (ticket : string * string) (current total : nat)
| U_ticket_failed (ticket : string * string) (error : option string) (current total : nat)
| U_cancelled
| U_completed (result : AutopilotResult).

(** The fields of a [Commands] instance. *)
Record Commands := mkCommands {
  copilot : bool;             (* this.copilot is not null *)
  autopilotRunning : bool;
  autopilotShouldStop : bool;
  autopilotCallback : bool    (* a callback is registered *)
}.

(** [new Commands()] *)
Definition new_Commands : Commands := mkCommands (sdk_constructs E) false false false.

(** What a method of [Commands] reads and writes: the instance, the ticket
    file, the outside world, and the updates delivered to callbacks. *)
Record CState := mkCState {
  this : Commands;
  store : Storage.File;
  ext : Ext;
  delivered : list AutopilotUpdate
}.

Definition C (A : Type) : Type := CState → Res A * CState.

#[global] Instance C_ret : MRet C := λ A a s, (Ok a, s).
#[global] Instance C_bind : MBind C := λ A B f m s,
  match m s with
  | (Ok a, s') => f a s'
  | (Throw e, s') => (Throw e, s')
  end.

Definition C_throw {A} (e : exn) : C A := λ s, (Throw e, s).

Definition C_try_catch {A} (m : C A) (h : exn → C A) : C A := λ s,
  match m s with
  | (Ok a, s') => (Ok a, s')
  | (Throw e, s') => h e s'
  end.

(** [try { m } finally { f }], for an [f] that does not throw. *)
Definition C_finally {A} (m : C A) (f : CState → CState) : C A := λ s,
  let '(r, s') := m s in (r, f s').

(** A call into the git layer or the resolver. *)
Definition lift {A} (g : G A) : C A := λ s,
  let '(r, x) := g (ext s) in (r, mkCState (this s) (store s) x (delivered s)).

Definition get_this : C Commands := λ s, (Ok (this s), s).

Definition set_this (f : Commands → Commands) : C unit := λ s,
  (Ok tt, mkCState (f (this s)) (store s) (ext s) (delivered s)).

Definition Storage_getAllTickets : C (list Ticket) := λ s,
  let '(ts, f) := Storage.getAllTickets (store s) in
  (Ok ts, mkCState (this s) f (ext s) (delivered s)).

Definition Storage_getTicket (idOrName : string) : C (option Ticket) := λ s,
  let '(t, f) := Storage.getTicket idOrName (store s) in
  (Ok t, mkCState (this s) f (ext s) (delivered s)).

Definition Storage_updateTicket (id : string) (updates : TicketUpdates) : C unit := λ s,
  (Ok tt, mkCState (this s) (Storage.updateTicket id updates (store s)) (ext s) (delivered s)).

(** [private sendUpdate(update)] *)
Definition sendUpdate (update : AutopilotUpdate) : C unit := λ s,
  if autopilotCallback (this s)
  then (Ok tt, mkCState (this s) (store s) (ext s) (delivered s ++ [update]))
  else (Ok tt, s).

(** [inquirer.prompt] with a confirm and with an input question. *)
Definition prompt_confirm (question : string) : C bool :=
  lift (h ← history; perform (EPrompt question);; mret (confirm_answer E h)).

Definition prompt_input (question default_answer : string) : C string :=
  lift (h ← history; perform (EPrompt question);; mret (input_answer E h default_answer)).

Definition analyzeTicketWithAI (ticket : Ticket) : C unit :=
  C_try_catch
    (cliAvailable ← lift CopilotCLI_isAvailable;
     if negb cliAvailable then mret tt
     else
       let options := resolver_options (Some (mkOptions (Some false) (Some true) None)) in
       result ← lift (resolve ticket options);
       if r_success result && truthy (r_summary result) then
         closedAt ← lift now;
         Storage_updateTicket (ticket_id ticket)
           (mkUpdates None (Some CLOSED) None None (Some closedAt) None None (r_summary result))
       else mret tt)
    (λ _, mret tt).

Definition start (ticketId : option string) : C unit :=
  if negb (truthy ticketId) then mret tt
  else
    found ← Storage_getTicket (default "" ticketId);
    match found with
    | None => mret tt
    | Some ticket =>
        if bool_decide (ticket_status ticket = WORKING) then mret tt
        else
          C_try_catch
            (isGit ← lift isGitRepo;
             self ← get_this;
             if negb isGit then
               startedAt ← lift now;
               Storage_updateTicket (ticket_id ticket)
                 (mkUpdates None (Some WORKING) (Some startedAt) None None None None None);;
               if copilot self then analyzeTicketWithAI ticket else mret tt
             else
               Storage_updateTicket (ticket_id ticket)
                 (mkUpdates None (Some BRANCHING) None None None None None None);;
               lift pullDevelop;;
               branchName ← lift (createBranch (ticket_id ticket));
               startedAt ← lift now;
               Storage_updateTicket (ticket_id ticket)
                 (mkUpdates None (Some WORKING) (Some startedAt) None None (Some branchName) None None);;
               if copilot self then analyzeTicketWithAI ticket else mret tt)
            (λ error,
               Storage_updateTicket (ticket_id ticket)
                 (mkUpdates None (Some ERROR) None None None None
                            (Some (error_message error)) None))
    end.

Definition stop (ticketId : option string) : C unit :=
  if negb (truthy ticketId) then mret tt
  else
    found ← Storage_getTicket (default "" ticketId);
    match found with
    | None => mret tt
    | Some ticket =>
        if negb (bool_decide (ticket_status ticket = WORKING)) then mret tt
        else
          C_try_catch
            (isGit ← lift isGitRepo;
             (if (isGit : bool) then
                hasChanges ← lift hasUncommittedChanges;
                (if (hasChanges : bool) then
                   shouldCommit ← prompt_confirm "You have uncommitted changes. Commit them?";
                   if (shouldCommit : bool) then
                     commitMessage ← prompt_input "Commit message:"
                                       ("Work in progress on " +:+ ticket_name ticket);
                     lift (commitChanges (ticket_id ticket) commitMessage)
                   else mret tt
                 else mret tt);;
                lift returnToDevelop
              else mret tt);;
             stoppedAt ← lift now;
             Storage_updateTicket (ticket_id ticket)
               (mkUpdates None (Some STOPPED) None (Some stoppedAt) None None None None))
            (λ _, mret tt)
    end.

(** [Array.prototype.sort] with the comparator
    [(a, b) => a.createdAt - b.createdAt].  The sort is stable, so its result
    is the one stable ordering by [createdAt]; it is computed here by
    insertion, each ticket going in front of the tickets already placed
    that are not older than it. *)
Fixpoint insert_by_createdAt (t : Ticket) (l : list Ticket) : list Ticket :=
  match l with
  | [] => [t]
  | u :: l' =>
      if (ticket_createdAt u <? ticket_createdAt t)%Z
      then u :: insert_by_createdAt t l'
      else t :: l
  end.

Definition sort_by_createdAt (l : list Ticket) : list Ticket :=
  foldr insert_by_createdAt [] l.

(** [allTickets.filter(t => t.status === PENDING).sort(...)] *)
Definition select_pending (allTickets : list Ticket) : list Ticket :=
  sort_by_createdAt (filter (λ t, ticket_status t = PENDING) allTickets).

Definition id_name (t : Ticket) : string * string := (ticket_id t, ticket_name t).

(** The body of the pre-provisioning loop of [autopilotMode]: reuse the
    worktree of the ticket if there is one, create it otherwise. *)
Definition ensureWorktree (ticketId : string) : G string :=
  existingWorktree ← worktreeExists ticketId;
  if truthy existingWorktree then mret (default "" existingWorktree)
  else createWorktree ticketId.

Fixpoint provision (pendingTickets : list Ticket) (worktreeMap : gmap string string)
  : C (gmap string string) :=
  match pendingTickets with
  | [] => mret worktreeMap
  | ticket :: rest =>
      worktreeMap' ←
        C_try_catch
          (worktreePath ← lift (ensureWorktree (ticket_id ticket));
           mret (<[ticket_id ticket := worktreePath]> worktreeMap))
          (λ _, mret worktreeMap);
      provision rest worktreeMap'
  end.

(** [stopAutopilot()] *)
Definition stopAutopilot : C unit :=
  set_this (λ c, if autopilotRunning c
                 then mkCommands (copilot c) (autopilotRunning c) true (autopilotCallback c)
                 else c).

(** [getAutopilotStatus()] *)
Definition getAutopilotStatus : C (bool * bool) :=
  self ← get_this; mret (autopilotRunning self, autopilotShouldStop self).

(** While the run awaits in phase [ph], another request may call
    [stopAutopilot] on this instance. *)
Definition meanwhile (ph : Phase) : C unit :=
  if stop_pressed E ph then stopAutopilot else mret tt.

(** What [resolveTicketAutopilot] returns. *)
Record TicketOutcome := mkOutcome {
  o_success : bool;
  o_summary : option string;
  o_error : option string
}.

Definition resolveTicketAutopilot (ticket : Ticket) (existingWorktree : option string)
  : C TicketOutcome :=
  startedAt ← lift now;
  Storage_updateTicket (ticket_id ticket)
    (mkUpdates None (Some WORKING) (Some startedAt) None None None None None);;
  C_try_catch
    (let options :=
       resolver_options (Some (mkOptions (Some false) (Some true) existingWorktree)) in
     result ← lift (resolve ticket options);
     (if r_success result && truthy (r_summary result) then
        closedAt ← lift now;
        Storage_updateTicket (ticket_id ticket)
          (mkUpdates None (Some CLOSED) None None (Some closedAt) None None (r_summary result))
      else if r_success result then
        closedAt ← lift now;
        Storage_updateTicket (ticket_id ticket)
          (mkUpdates None (Some CLOSED) None None (Some closedAt) None None None)
      else
        Storage_updateTicket (ticket_id ticket)
          (mkUpdates None (Some ERROR) None None None None
                     (Some (or_else (r_error result) "Unknown error")) None));;
     mret (mkOutcome (r_success result) (r_summary result) (r_error result)))
    (λ error,
       let errorMsg := error_message error in
       Storage_updateTicket (ticket_id ticket)
         (mkUpdates None (Some ERROR) None None None None (Some errorMsg) None);;
       mret (mkOutcome false None (Some errorMsg))).

(** One turn of the loop of [autopilotMode], past the stop check: the ticket
    at index [i] is announced and resolved, and its outcome is pushed on
    [completed] or on [failed]. *)
Definition process_ticket (ticket : Ticket) (i total : nat)
    (worktreeMap : gmap string string)
    (completed failed : list AutopilotTicketResult)
  : C (list AutopilotTicketResult * list AutopilotTicketResult) :=
  ticketStartTime ← lift now;
  sendUpdate (U_processing (i + 1) total (id_name ticket));;
  C_try_catch
    (let worktreePath := worktreeMap !! ticket_id ticket in
     result ← resolveTicketAutopilot ticket worktreePath;
     meanwhile (Resolving i);;
     t ← lift now;
     let ticketDuration := (t - ticketStartTime)%Z in
     if o_success result then
       sendUpdate (U_ticket_completed (id_name ticket) (i + 1) total);;
       mret (completed ++ [mkTicketResult ticket true ticketDuration None
                                          (o_summary result)], failed)
     else
       sendUpdate (U_ticket_failed (id_name ticket) (o_error result) (i + 1) total);;
       mret (completed, failed ++ [mkTicketResult ticket false ticketDuration
                                                  (o_error result) None]))
    (λ error,
       t ← lift now;
       let ticketDuration := (t - ticketStartTime)%Z in
       let errorMsg := error_message error in
       sendUpdate (U_ticket_failed (id_name ticket) (Some errorMsg) (i + 1) total);;
       mret (completed, failed ++ [mkTicketResult ticket false ticketDuration
                                                  (Some errorMsg) None])).

(** The loop [for (let i = 0; i < pendingTickets.length; i++)], at index [i]
    with [rest] the tickets from position [i] on. *)
Fixpoint process_tickets (rest : list Ticket) (i total : nat)
    (worktreeMap : gmap string string)
    (completed failed : list AutopilotTicketResult)
  : C (list AutopilotTicketResult * list AutopilotTicketResult) :=
  match rest with
  | [] => mret (completed, failed)
  | ticket :: rest' =>
      self ← get_this;
      if autopilotShouldStop self then
        sendUpdate U_cancelled;;
        mret (completed, failed)
      else
        '(completed', failed') ←
          process_ticket ticket i total worktreeMap completed failed;
        process_tickets rest' (i + 1) total worktreeMap completed' failed'
  end.

Definition autopilotMode (callback : bool) : C AutopilotResult :=
  self ← get_this;
  if autopilotRunning self then C_throw (JsError "Autopilot is already running")
  else
    set_this (λ c, mkCommands (copilot c) true false callback);;
    startTime ← lift now;
    C_finally
      (allTickets ← Storage_getAllTickets;
       let pendingTickets := select_pending allTickets in
       if bool_decide (length pendingTickets = 0) then
         set_this (λ c, mkCommands (copilot c) false (autopilotShouldStop c)
                                   (autopilotCallback c));;
         sendUpdate U_no_tickets;;
         mret (mkAutopilotResult [] [] 0 false)
       else
         sendUpdate (U_started (length pendingTickets) (id_name <$> pendingTickets));;
         worktreeMap ← provision pendingTickets ∅;
         meanwhile Provisioning;;
         '(completed, failed) ←
           process_tickets pendingTickets 0 (length pendingTickets) worktreeMap [] [];
         t ← lift now;
         self' ← get_this;
         let result := mkAutopilotResult completed failed (t - startTime)%Z
                                         (autopilotShouldStop self') in
         sendUpdate (U_completed result);;
         mret result)
      (λ s, mkCState (mkCommands (copilot (this s)) false false false)
                     (store s) (ext s) (delivered s)).

(* --------------------------------------------------------------------- *)
(** *** web/routes/tickets.ts: the autopilot routes

    A process holds any number of [Commands] instances; each route handler
    creates its own with [new Commands()]. *)

Record Process := mkProcess {
  instances : list Commands;
  p_store : Storage.File;
  p_ext : Ext;
  p_delivered : list AutopilotUpdate
}.

(** A method call on the instance at position [i]. *)
Definition call_on {A} (i : nat) (m : C A) (P : Process) : option (Res A * Process) :=
  c ← instances P !! i;
  let '(r, s) := m (mkCState c (p_store P) (p_ext P) (p_delivered P)) in
  Some (r, mkProcess (<[i := this s]> (instances P)) (store s) (ext s) (delivered s)).

(** Some instance of the process is inside [autopilotMode]. *)
Definition run_in_progress (P : Process) : bool :=
  existsb autopilotRunning (instances P).

Inductive RouteResponse :=
| Conflict409 (error : string)
| JsonFailure (error : string)
| JsonStarted (ticketsCount : nat)
| JsonStopping.

(** [router.post('/autopilot', ...)]: the response, and how the call of
    [autopilotMode] it launches ends. *)
Definition post_autopilot (P : Process)
  : RouteResponse * option (Res AutopilotResult) * Process :=
  let i := length (instances P) in
  let P0 := mkProcess (instances P ++ [new_Commands]) (p_store P) (p_ext P) (p_delivered P) in
  match call_on i getAutopilotStatus P0 with
  | Some (Ok (running, _), P1) =>
      if (running : bool) then (Conflict409 "Autopilot is already running", None, P1)
      else
        match call_on i Storage_getAllTickets P1 with
        | Some (Ok allTickets, P2) =>
            let pendingTickets := filter (λ t, ticket_status t = PENDING) allTickets in
            if bool_decide (length pendingTickets = 0)
            then (JsonFailure "No pending tickets to process", None, P2)
            else
              match call_on i (autopilotMode true) P2 with
              | Some (r, P3) => (JsonStarted (length pendingTickets), Some r, P3)
              | None => (JsonFailure "Unknown error", None, P2)
              end
        | _ => (JsonFailure "Unknown error", None, P1)
        end
  | _ => (JsonFailure "Unknown error", None, P0)
  end.

(** [router.post('/autopilot/stop', ...)] *)
Definition post_autopilot_stop (P : Process) : RouteResponse * Process :=
  let i := length (instances P) in
  let P0 := mkProcess (instances P ++ [new_Commands]) (p_store P) (p_ext P) (p_delivered P) in
  match call_on i stopAutopilot P0 with
  | Some (_, P1) => (JsonStopping, P1)
  | None => (JsonStopping, P0)
  end.

End World.

(* ===================================================================== *)
(** ** Vocabulary of the statements *)
(* ===================================================================== *)

(** The tickets named by the [processing] updates, in the order of delivery. *)
Definition attempted (us : list AutopilotUpdate) : list (string * string) :=
  omap (λ u, match u with U_processing _ _ t => Some t | _ => None end) us.

(** The status of the first record with a given id, the one [updateTicket]
    writes to; in a list of tickets, and in the store. *)
Definition first_status (id : string) (l : list Ticket) : option TicketStatus :=
  (ticket_status ∘ snd) <$> list_find (λ t, ticket_id t = id) l.

Definition status_of (id : string) (f : Storage.File) : option TicketStatus :=
  first_status id (Storage.contents f).

(** What [updateTicket] does to the list of tickets, by recursion on the
    list: the first record with the id is replaced by its spread. *)
Fixpoint update_first (id : string) (u : TicketUpdates) (l : list Ticket) : list Ticket :=
  match l with
  | [] => []
  | t :: l' =>
      if decide (ticket_id t = id) then spread t u :: l' else t :: update_first id u l'
  end.

(** [resolved_in l f f']: the store went from [f] to [f'] by resolving the
    tickets of [l] in turn, each marked working and then closed or error. *)
Inductive resolved_in : list Ticket → Storage.File → Storage.File → Prop :=
| resolved_nil f : resolved_in [] f f
| resolved_cons t l f f' u1 u2 :
    upd_status u1 = Some WORKING →
    upd_status u2 = Some CLOSED ∨ upd_status u2 = Some ERROR →
    resolved_in l
      (Storage.updateTicket (ticket_id t) u2 (Storage.updateTicket (ticket_id t) u1 f)) f' →
    resolved_in (t :: l) f f'.

(** How many tickets of [rest] the loop of [autopilotMode] resolves from
    index [i] on, and the stop flag it ends with, when it is entered with
    the flag [stop]. *)
Fixpoint resolved_count (E : Env) (rest : list Ticket) (i : nat) (stop : bool) : nat :=
  match rest with
  | [] => 0
  | _ :: rest' =>
      if stop then 0 else S (resolved_count E rest' (i + 1) (stop_pressed E (Resolving i)))
  end.

Fixpoint flag_after (E : Env) (rest : list Ticket) (i : nat) (stop : bool) : bool :=
  match rest with
  | [] => stop
  | _ :: rest' =>
      if stop then true else flag_after E rest' (i + 1) (stop_pressed E (Resolving i))
  end.

Definition older_or_same (a b : Ticket) : Prop :=
  (ticket_createdAt a ≤ ticket_createdAt b)%Z.

(** The exception with which the agent invocation of [resolve] ends, if
    any, when the CLI is run in [p] after the history [h]: the one thrown
    while launching it, or the [Error] built from a failure result. *)
Definition agent_failure (E : Env) (ticket : Ticket) (p : string) (h : list Effect)
  : option exn :=
  match agent_run E h p ticket (getCopilotModel E) with
  | Throw e => Some e
  | Ok r =>
      if cli_success r then None
      else Some (JsError (or_else (cli_error r) "Copilot CLI failed"))
  end.

(** The world after the clean-up of the [catch] block of [resolve]. *)
Definition after_cleanup (E : Env) (o : SimplifiedResolverOptions)
    (wt : option string) (x : Ext) : Ext :=
  if bool_decide (cleanupOnError o = Some true) && truthy wt
  then snd (removeWorktree E (default "" wt) x) else x.

(** The commits of a history: directory and message. *)
Definition commits (h : list Effect) : list (string * string) :=
  omap (λ e, match e with EGit dir (GitCommit m) => Some (dir, m) | _ => None end) h.

(* ===================================================================== *)
(** ** Sample worlds *)
(* ===================================================================== *)

Module Sample.

Definition configured : ProjectConfig :=
  mkProjectConfig None (Some "/repo") (Some "/auto") None None.

Definition unconfigured : ProjectConfig :=
  mkProjectConfig None None None None None.

(** A world in which git never fails: [cli] says whether the Copilot CLI is
    installed, [agent_ok] whether it exits with 0, [changed] how many files
    git status lists, [sdk_ok] whether SDK sessions succeed, and [stops]
    when the stop button is pressed. *)
Definition world (cfg : ProjectConfig) (cli agent_ok : bool) (changed : nat)
    (sdk_ok : bool) (stops : Phase → bool) : Env :=
  mkEnv cfg "/work" (λ a b, a +:+ "/" +:+ b) (λ h, Z.of_nat (length h))
    (λ _, cli) true
    (λ _ dir _, if bool_decide (dir = "/work") then Some (JsError "not a git repository") else None)
    (λ _ _, changed)
    (λ _ _, "diff --git a/login.ts b/login.ts")
    (λ _ _, None)
    (λ _ _ _ _,
       Ok (mkCLIResult agent_ok "Copilot completed"
             (if agent_ok then None else Some "Process exited with code 1")))
    (λ _ _, if sdk_ok then Ok "Fix the login redirect" else Throw (JsError "session failed"))
    (λ _, true) (λ _ d, d) stops.

Definition never : Phase → bool := λ _, false.

(** Everything works, the agent changes one file, nobody presses stop. *)
Definition happy : Env := world configured true true 1 true never.

Definition during (k : nat) : Phase → bool :=
  λ ph, match ph with Resolving i => bool_decide (i = k) | Provisioning => false end.

Definition ticket (id : string) (st : TicketStatus) (created : Z) : Ticket :=
  mkTicket id id "fix login bug" st created None None None None None None.

Definition nothing_done : Ext := mkExt ∅ [].

Definition with_worktree (p : string) : Ext := mkExt {[p]} [].

Definition fresh (c : Commands) (ts : list Ticket) : CState :=
  mkCState c (Some (mkTicketConfig ts 0)) nothing_done [].

Definition autopilot_options (wt : option string) : SimplifiedResolverOptions :=
  resolver_options (Some (mkOptions (Some false) (Some true) wt)).

(** The stop button is pressed while the ticket at position [k] is resolved. *)
Definition stop_during (k : nat) : Env :=
  world configured true true 1 true (during k).

(** The agent succeeds and changes nothing. *)
Definition no_changes : Env := world configured true true 0 true never.

(** SDK sessions fail. *)
Definition sdk_down : Env := world configured true true 1 false never.

(** The Copilot CLI is not installed. *)
Definition cli_missing : Env := world configured false true 1 true never.

(** The Copilot CLI exits with code 1. *)
Definition agent_fails : Env := world configured true false 1 true never.

(** The current directory is a git repository; [pull_ok] says whether
    [git pull] works there. *)
Definition in_repo (pull_ok : bool) : Env :=
  mkEnv configured "/repo" (λ a b, a +:+ "/" +:+ b) (λ h, Z.of_nat (length h))
    (λ _, true) true
    (λ _ _ cmd, match cmd with
                | GitPull _ _ =>
                    if pull_ok then None else Some (JsError "could not read from remote")
                | _ => None
                end)
    (λ _ _, 0) (λ _ _, "") (λ _ _, None)
    (λ _ _ _ _, Ok (mkCLIResult true "Copilot completed" None))
    (λ _ _, Ok "Fix the login redirect")
    (λ _, true) (λ _ d, d) never.

Definition two_pending : list Ticket :=
  [ticket "T-1" PENDING 1; ticket "T-2" PENDING 2].

(** A process in which one [Commands] instance is in the middle of an
    autopilot run. *)
Definition running_elsewhere : Process :=
  mkProcess [mkCommands true true false true]
            (Some (mkTicketConfig two_pending 0)) nothing_done [].

End Sample.

(* ===================================================================== *)
(** ** Ticket housekeeping: Commands.delete, Commands.import, the ticket
       routes and the desktop handlers *)
(* ===================================================================== *)

Section Housekeeping.

Variable E : Env.

(** [(await git.branch()).all] in a directory after a history: the names of
    the local branches, or the exception of the call.  Listing branches
    changes nothing and is not recorded in the history. *)
Variable branch_all : list Effect → string → Res (list string).

(** [fs.readFileSync(filePath, 'utf-8')] *)
Variable readFileSync : string → Res string.

(** [parseMarkdownTickets(content)]: the [{ id, description }] pairs the
    regular expression of the command finds in a Markdown text; a pure
    function of the text, left open here. *)
Variable parseMarkdownTickets : string → list (string * string).

(* --------------------------------------------------------------------- *)
(** *** utils/git.ts: the branch helpers of GitManager *)

Definition git_branch (dir : string) : G (list string) :=
  h ← history;
  match branch_all h dir with
  | Ok all => mret all
  | Throw e => throw e
  end.

Definition branchExists (branchName : string) : G bool :=
  try_catch
    (all ← git_branch (cwd E); mret (bool_decide (branchName ∈ all)))
    (λ _, mret false).

Definition branchExistsInBase (branchName : string) : G bool :=
  let baseRepoPath := getBaseRepositoryPath E in
  if negb (truthy baseRepoPath) then mret false
  else
    try_catch
      (all ← git_branch (default "" baseRepoPath); mret (bool_decide (branchName ∈ all)))
      (λ _, mret false).

Definition deleteBranch (branchName : string) : G unit :=
  try_catch (git E (cwd E) (GitDeleteLocalBranch branchName)) (λ _, mret tt).

Definition deleteBranchInBase (branchName : string) : G unit :=
  let baseRepoPath := getBaseRepositoryPath E in
  if negb (truthy baseRepoPath) then mret tt
  else
    try_catch (git E (default "" baseRepoPath) (GitDeleteLocalBranch branchName))
      (λ _, mret tt).

(* --------------------------------------------------------------------- *)
(** *** commands/index.ts: Commands.delete and Commands.import *)

Definition Storage_createTicket (ticketId description : string) : C Ticket := λ s,
  let '(t, f) :=
    Storage.createTicket ticketId description (clock E (trace (ext s))) (store s) in
  (Ok t, mkCState (this s) f (ext s) (delivered s)).

Definition Storage_deleteTicket (id : string) : C bool := λ s,
  let '(b, f) := Storage.deleteTicket id (store s) in
  (Ok b, mkCState (this s) f (ext s) (delivered s)).

(** The clean-up of the git resources of a ticket, the [try] block of
    [delete]. *)
Definition delete_cleanup (ticketId : string) : G unit :=
  worktreePath ← worktreeExists E ticketId;
  (if truthy worktreePath then removeWorktree E (default "" worktreePath) else mret tt);;
  let copilotBranch := "copilot/" +:+ ticketId in
  inBase ← branchExistsInBase copilotBranch;
  copilotBranchExists ← (if (inBase : bool) then mret true else branchExists copilotBranch);
  (if (copilotBranchExists : bool) then
     deleteBranchInBase copilotBranch;; deleteBranch copilotBranch
   else mret tt);;
  let testBranch := "test/copilot/" +:+ ticketId in
  inBase' ← branchExistsInBase testBranch;
  testBranchExists ← (if (inBase' : bool) then mret true else branchExists testBranch);
  (if (testBranchExists : bool) then
     deleteBranchInBase testBranch;; deleteBranch testBranch
   else mret tt).

(** [delete(ticketId, skipConfirmation)]; the result says whether
    [Storage.deleteTicket] was reached and what it returned. *)
Definition Commands_delete (ticketId : option string) (skipConfirmation : bool)
  : C (option bool) :=
  if negb (truthy ticketId) then mret None
  else
    found ← Storage_getTicket (default "" ticketId);
    match found with
    | None => mret None
    | Some ticket =>
        confirm ←
          (if negb skipConfirmation then
             prompt_confirm E ("Are you sure you want to delete ticket "
                                 +:+ ticket_id ticket +:+ "?")
           else mret true);
        if negb confirm then mret None
        else
          C_try_catch (lift (delete_cleanup (default "" ticketId))) (λ _, mret tt);;
          success ← Storage_deleteTicket (ticket_id ticket);
          mret (Some success)
    end.

(** The loop of [import] over the parsed tickets, with its two counters. *)
Fixpoint import_loop (parsed : list (string * string)) (imported skipped : nat)
  : C (nat * nat) :=
  match parsed with
  | [] => mret (imported, skipped)
  | (id, description) :: rest =>
      existing ← Storage_getTicket id;
      match existing with
      | Some _ => import_loop rest imported (skipped + 1)
      | None =>
          Storage_createTicket id description;;
          import_loop rest (imported + 1) skipped
      end
  end.

(** [import(filename)]; the result is the pair of counters of the closing
    message "Import complete: n created, m skipped", when it is shown. *)
Definition Commands_import (filename : option string) : C (option (nat * nat)) :=
  if negb (truthy filename) then mret None
  else
    let filePath := path_join E (cwd E) (default "" filename) in
    present ← lift (existsSync filePath);
    if negb present then mret None
    else
      C_try_catch
        (match readFileSync filePath with
         | Throw e => C_throw e
         | Ok content =>
             let parsed := parseMarkdownTickets content in
             if bool_decide (length parsed = 0) then mret None
             else
               counters ← import_loop parsed 0 0;
               mret (Some counters)
         end)
        (λ _, mret None).

(* --------------------------------------------------------------------- *)
(** *** web/routes/tickets.ts: the status routes of the autopilot *)

(** [router.get('/autopilot/status', ...)] *)
Definition get_autopilot_status (P : Process) : option (bool * bool) * Process :=
  let i := length (instances P) in
  let P0 := mkProcess (instances P ++ [new_Commands E]) (p_store P) (p_ext P) (p_delivered P) in
  match call_on i (getAutopilotStatus) P0 with
  | Some (Ok status, P1) => (Some status, P1)
  | _ => (None, P0)
  end.

End Housekeeping.

(* --------------------------------------------------------------------- *)
(** *** web/routes/tickets.ts: creating and editing a ticket

    [name] and [description] are the fields of the request body, when they
    are strings or absent; [now] is the [new Date()] of [createTicket]. *)

Inductive TicketReply :=
| Reply400 (error : string)
| Reply404 (error : string)
| ReplyTicket (ticket : option Ticket).

(** [router.post('/', ...)] *)
Definition post_ticket (name description : option string) (now : Z) (f : Storage.File)
  : TicketReply * Storage.File :=
  if negb (truthy name) || negb (truthy description) then
    (Reply400 "Name and description are required", f)
  else
    let '(ticket, f') :=
      Storage.createTicket (default "" name) (default "" description) now f in
    (ReplyTicket (Some ticket), f').

(** [router.patch('/:id', ...)] *)
Definition patch_ticket (id : string) (description : option string) (f : Storage.File)
  : TicketReply * Storage.File :=
  if negb (truthy description) then (Reply400 "Description is required", f)
  else
    let '(ticket, f1) := Storage.getTicket id f in
    match ticket with
    | None => (Reply404 "Ticket not found", f1)
    | Some _ =>
        let f2 :=
          Storage.updateTicket id
            (mkUpdates description None None None None None None None) f1 in
        let '(updatedTicket, f3) := Storage.getTicket id f2 in
        (ReplyTicket updatedTicket, f3)
    end.

(* --------------------------------------------------------------------- *)
(** *** electron-main.ts: the ticket handlers of the desktop application

    [Storage.getTicket] returns an object of the array it has just parsed
    from the file; the handlers assign to that object and then save the
    configuration they read anew with [Storage.getConfig]. *)

Inductive IpcReply :=
| IpcTicket (ticket : Ticket)
| IpcDone
| IpcError (error : string).

(** [ipcMain.handle('update-ticket', ...)] *)
Definition ipc_update_ticket (id description : string) (f : Storage.File)
  : IpcReply * Storage.File :=
  let '(found, f1) := Storage.getTicket id f in
  match found with
  | None => (IpcError "Ticket not found", f1)
  | Some ticket =>
      let ticket :=
        spread ticket (mkUpdates (Some description) None None None None None None None) in
      let '(config, f2) := Storage.getConfig f1 in
      (IpcTicket ticket, Storage.saveConfig config f2)
  end.

(** [ipcMain.handle('stop-ticket', ...)] *)
Definition ipc_stop_ticket (id : string) (now : Z) (f : Storage.File)
  : IpcReply * Storage.File :=
  let '(found, f1) := Storage.getTicket id f in
  match found with
  | None => (IpcError "Ticket not found", f1)
  | Some ticket =>
      let ticket :=
        spread ticket (mkUpdates None (Some STOPPED) None (Some now) None None None None) in
      let '(config, f2) := Storage.getConfig f1 in
      (IpcTicket ticket, Storage.saveConfig config f2)
  end.

(** [ipcMain.handle('delete-ticket', ...)] *)
Definition ipc_delete_ticket (id : string) (f : Storage.File) : IpcReply * Storage.File :=
  let '(_, f') := Storage.deleteTicket id f in (IpcDone, f').

(* ===================================================================== *)
(** ** utils/config.ts: ConfigManager, on the file it manages *)
(* ===================================================================== *)

Module ConfigManager.

(** The keys of [~/.autopilot/config.json]; a key that is absent or
    [undefined] is [None]. *)
Record Config := mkConfig {
  debug : option bool;
  baseRepositoryPath : option string;
  automationPath : option string;
  baseBranch : option string;
  copilotModel : option string;
  ticketCommandPrompt : option string;
  ticketResolutionPrompt : option string;
  reportLanguage : option string
}.

(** The file: absent, or holding a parsed configuration. *)
Definition File := option Config.

(** What [fs.existsSync] and [fs.statSync(p).isDirectory()] see at a path. *)
Inductive PathKind := Missing | RegularFile | Directory.

#[global] Instance PathKind_eq_dec : EqDecision PathKind.
Proof. solve_decision. Defined.

Definition newline : string := String (ascii_of_nat 10) EmptyString.

Definition DEFAULT_TICKET_COMMAND_PROMPT : string :=
  "Act as a senior developer. Analyze the software ticket in the following file and provide an implementation to resolve it, File -> ${FILE}".

Definition DEFAULT_TICKET_RESOLUTION_PROMPT : string :=
  "You are working on a repository." +:+ newline +:+ newline +:+
  "Fix the following issue in the code." +:+ newline +:+ newline +:+
  "**Issue Identifier:**" +:+ newline +:+
  "${ID}" +:+ newline +:+
  "**Issue Description:**" +:+ newline +:+
  "${DESCRIPTION}" +:+ newline +:+ newline +:+
  "**Rules:**" +:+ newline +:+
  "- Only modify what's necessary" +:+ newline +:+
  "- Don't refactor unrelated code" +:+ newline +:+
  "- Don't change dependencies" +:+ newline +:+
  "- Don't perform git operations" +:+ newline +:+
  "- Keep changes minimal" +:+ newline +:+
  "- Apply changes directly to the code".

Definition initialConfig : Config :=
  mkConfig (Some false) None None (Some "develop") (Some "gpt-4o")
           (Some DEFAULT_TICKET_COMMAND_PROMPT) (Some DEFAULT_TICKET_RESOLUTION_PROMPT)
           (Some "en").

Definition ensureConfigExists (f : File) : File :=
  match f with
  | None => Some initialConfig
  | Some c => Some c
  end.

Definition getConfig (f : File) : Config * File :=
  match ensureConfigExists f with
  | Some c => (c, Some c)
  | None => (initialConfig, Some initialConfig)
  end.

Definition saveConfig (c : Config) (_ : File) : File := Some c.

Definition isDebugEnabled (f : File) : bool * File :=
  let '(c, f') := getConfig f in (bool_decide (debug c = Some true), f').

Definition setDebug (enabled : bool) (f : File) : File :=
  let '(c, f') := getConfig f in
  saveConfig (mkConfig (Some enabled) (baseRepositoryPath c) (automationPath c)
                       (baseBranch c) (copilotModel c) (ticketCommandPrompt c)
                       (ticketResolutionPrompt c) (reportLanguage c)) f'.

Definition getBaseRepositoryPath (f : File) : option string * File :=
  let '(c, f') := getConfig f in (baseRepositoryPath c, f').

Definition setBaseRepositoryPath (disk : string → PathKind) (path : string) (f : File)
  : Res unit * File :=
  if bool_decide (disk path = Missing) then
    (Throw (JsError ("Base repository path does not exist: " +:+ path)), f)
  else if negb (bool_decide (disk path = Directory)) then
    (Throw (JsError ("Base repository path is not a directory: " +:+ path)), f)
  else
    let '(c, f') := getConfig f in
    (Ok tt,
     saveConfig (mkConfig (debug c) (Some path) (automationPath c)
                          (baseBranch c) (copilotModel c) (ticketCommandPrompt c)
                          (ticketResolutionPrompt c) (reportLanguage c)) f').

Definition getAutomationPath (f : File) : option string * File :=
  let '(c, f') := getConfig f in (automationPath c, f').

Definition setAutomationPath (disk : string → PathKind) (path : string) (f : File)
  : Res unit * File :=
  if bool_decide (disk path = Missing) then
    (Throw (JsError ("Automation path does not exist: " +:+ path)), f)
  else if negb (bool_decide (disk path = Directory)) then
    (Throw (JsError ("Automation path is not a directory: " +:+ path)), f)
  else
    let '(c, f') := getConfig f in
    (Ok tt,
     saveConfig (mkConfig (debug c) (baseRepositoryPath c) (Some path)
                          (baseBranch c) (copilotModel c) (ticketCommandPrompt c)
                          (ticketResolutionPrompt c) (reportLanguage c)) f').

Definition getBaseBranch (f : File) : string * File :=
  let '(c, f') := getConfig f in (or_else (baseBranch c) "develop", f').

Definition setBaseBranch (branch : string) (f : File) : File :=
  let '(c, f') := getConfig f in
  saveConfig (mkConfig (debug c) (baseRepositoryPath c) (automationPath c)
                       (Some branch) (copilotModel c) (ticketCommandPrompt c)
                       (ticketResolutionPrompt c) (reportLanguage c)) f'.

Definition getCopilotModel (f : File) : string * File :=
  let '(c, f') := getConfig f in (or_else (copilotModel c) "gpt-4o", f').

Definition setCopilotModel (model : string) (f : File) : File :=
  let '(c, f') := getConfig f in
  saveConfig (mkConfig (debug c) (baseRepositoryPath c) (automationPath c)
                       (baseBranch c) (Some model) (ticketCommandPrompt c)
                       (ticketResolutionPrompt c) (reportLanguage c)) f'.

Definition getTicketCommandPrompt (f : File) : string * File :=
  let '(c, f') := getConfig f in
  (or_else (ticketCommandPrompt c) DEFAULT_TICKET_COMMAND_PROMPT, f').

Definition setTicketCommandPrompt (prompt : string) (f : File) : File :=
  let '(c, f') := getConfig f in
  saveConfig (mkConfig (debug c) (baseRepositoryPath c) (automationPath c)
                       (baseBranch c) (copilotModel c) (Some prompt)
                       (ticketResolutionPrompt c) (reportLanguage c)) f'.

Definition getTicketResolutionPrompt (f : File) : string * File :=
  let '(c, f') := getConfig f in
  (or_else (ticketResolutionPrompt c) DEFAULT_TICKET_RESOLUTION_PROMPT, f').

Definition setTicketResolutionPrompt (prompt : string) (f : File) : File :=
  let '(c, f') := getConfig f in
  saveConfig (mkConfig (debug c) (baseRepositoryPath c) (automationPath c)
                       (baseBranch c) (copilotModel c) (ticketCommandPrompt c)
                       (Some prompt) (reportLanguage c)) f'.

Definition getReportLanguage (f : File) : string * File :=
  let '(c, f') := getConfig f in (or_else (reportLanguage c) "en", f').

Definition setReportLanguage (language : string) (f : File) : File :=
  let '(c, f') := getConfig f in
  saveConfig (mkConfig (debug c) (baseRepositoryPath c) (automationPath c)
                       (baseBranch c) (copilotModel c) (ticketCommandPrompt c)
                       (ticketResolutionPrompt c) (Some language)) f'.

(** The configuration the git layer and the resolver read, as the world of
    the sections above holds it. *)
Definition project (f : File) : ProjectConfig :=
  let c := fst (getConfig f) in
  mkProjectConfig (debug c) (baseRepositoryPath c) (automationPath c)
                  (baseBranch c) (copilotModel c).

(** What the getters answer, all at once. *)
Record Settings := mkSettings {
  s_debug : bool;
  s_baseRepositoryPath : option string;
  s_automationPath : option string;
  s_baseBranch : string;
  s_copilotModel : string;
  s_ticketCommandPrompt : string;
  s_ticketResolutionPrompt : string;
  s_reportLanguage : string
}.

Definition settings (f : File) : Settings :=
  mkSettings (fst (isDebugEnabled f)) (fst (getBaseRepositoryPath f))
             (fst (getAutomationPath f)) (fst (getBaseBranch f))
             (fst (getCopilotModel f)) (fst (getTicketCommandPrompt f))
             (fst (getTicketResolutionPrompt f)) (fst (getReportLanguage f)).

(* --------------------------------------------------------------------- *)
(** *** commands/index.ts: Commands.config *)

(** What the command displays: the listing of the settings, an error, or a
    confirmation. *)
Inductive ConfigReply :=
| ConfigListing (debugEnabled : bool) (baseRepoPath automationPath : option string)
    (baseBranch copilotModel ticketCommandPrompt ticketResolutionPrompt : string)
| ConfigError (message : string)
| ConfigSuccess (message : string).

Definition dquote : string := String (ascii_of_nat 34) EmptyString.

Definition quoted (s : string) : string := dquote +:+ s +:+ dquote.

Definition config_listing (f : File) : ConfigReply * File :=
  let '(debugEnabled, f) := isDebugEnabled f in
  let '(baseRepoPath, f) := getBaseRepositoryPath f in
  let '(automationPath, f) := getAutomationPath f in
  let '(baseBranch, f) := getBaseBranch f in
  let '(copilotModel, f) := getCopilotModel f in
  let '(ticketCommandPrompt, f) := getTicketCommandPrompt f in
  let '(ticketResolutionPrompt, f) := getTicketResolutionPrompt f in
  (ConfigListing debugEnabled baseRepoPath automationPath baseBranch copilotModel
     (String.substring 0 60 ticketCommandPrompt +:+ "...")
     (String.substring 0 60 ticketResolutionPrompt +:+ "..."), f).

Definition Commands_config (disk : string → PathKind) (action value : option string)
    (f : File) : ConfigReply * File :=
  if negb (truthy action) then config_listing f
  else
    let act := toLowerCase (default "" action) in
    let v := default "" value in
    if bool_decide (act = "debug") then
      if negb (truthy value)
         || (negb (bool_decide (toLowerCase v = "on"))
             && negb (bool_decide (toLowerCase v = "off")))
      then (ConfigError ("Please specify " +:+ quoted "on" +:+ " or " +:+ quoted "off"
                           +:+ ": config debug on/off"), f)
      else
        let enable := bool_decide (toLowerCase v = "on") in
        (ConfigSuccess ("Debug mode " +:+ (if enable then "enabled" else "disabled")),
         setDebug enable f)
    else if bool_decide (act = "base-repo") then
      if negb (truthy value)
      then (ConfigError "Please provide a path: config base-repo <path>", f)
      else
        match setBaseRepositoryPath disk v f with
        | (Ok _, f') => (ConfigSuccess ("Base repository path configured: " +:+ v), f')
        | (Throw e, f') =>
            (ConfigError ("Failed to set base repository path: " +:+ error_message e), f')
        end
    else if bool_decide (act = "automation") then
      if negb (truthy value)
      then (ConfigError "Please provide a path: config automation <path>", f)
      else
        match setAutomationPath disk v f with
        | (Ok _, f') => (ConfigSuccess ("Automation path configured: " +:+ v), f')
        | (Throw e, f') =>
            (ConfigError ("Failed to set automation path: " +:+ error_message e), f')
        end
    else if bool_decide (act = "branch") then
      if negb (truthy value)
      then (ConfigError "Please provide a branch name: config branch <name>", f)
      else (ConfigSuccess ("Base branch configured: " +:+ v), setBaseBranch v f)
    else if bool_decide (act = "model") then
      if negb (truthy value)
      then (ConfigError "Please provide a model name: config model <name>", f)
      else (ConfigSuccess ("Copilot model configured: " +:+ v), setCopilotModel v f)
    else if bool_decide (act = "ticket-command-prompt") then
      if negb (truthy value)
      then (ConfigError "Please provide a prompt: config ticket-command-prompt <prompt>", f)
      else (ConfigSuccess "Ticket Command Prompt configured successfully",
            setTicketCommandPrompt v f)
    else if bool_decide (act = "ticket-resolution-prompt") then
      if negb (truthy value)
      then (ConfigError "Please provide a prompt: config ticket-resolution-prompt <prompt>", f)
      else (ConfigSuccess "Ticket Resolution Prompt configured successfully",
            setTicketResolutionPrompt v f)
    else
      (ConfigError
         ("Unknown config action: " +:+ default "" action +:+ ". Use "
            +:+ quoted "config" +:+ ", "
            +:+ quoted "config base-repo <path>" +:+ ", "
            +:+ quoted "config automation <path>" +:+ ", "
            +:+ quoted "config branch <name>" +:+ ", "
            +:+ quoted "config model <name>" +:+ ", "
            +:+ quoted "config debug on/off" +:+ ", "
            +:+ quoted "config ticket-command-prompt <prompt>" +:+ ", or "
            +:+ quoted "config ticket-resolution-prompt <prompt>"), f).

End ConfigManager.

(* ===================================================================== *)
(** ** utils/log-interceptor.ts: LogInterceptor *)
(* ===================================================================== *)

Module LogInterceptor.

(** What [console.log] is bound to: the function the process started with,
    or an arrow function installed by [start].  All the arrow functions
    behave alike: they read the static fields when they are called. *)
Inductive Fn := Native | Interceptor.

(** The static fields of the class, and the binding of [console.log]
    ([console.error] is handled the same way, with its own field). *)
Record State := mkState {
  console_log : Fn;
  originalLog : option Fn;
  isIntercepting : bool;
  currentTicketId : option string
}.

(** The state of a fresh process. *)
Definition initial : State := mkState Native None false None.

Definition start (ticketId : option string) (st : State) : State :=
  if isIntercepting st then st
  else mkState Interceptor (Some (console_log st)) true ticketId.

Definition stop (st : State) : State :=
  if negb (isIntercepting st) then st
  else
    match originalLog st with
    | Some fn => mkState fn (originalLog st) false None
    | None => st
    end.

Definition setTicketId (ticketId : option string) (st : State) : State :=
  mkState (console_log st) (originalLog st) (isIntercepting st) ticketId.

Definition isActive (st : State) : bool := isIntercepting st.

(** What a call of [console.log(message)] produces: lines on the terminal,
    and messages sent on with the ticket id of the moment. *)
Inductive Output :=
| Terminal (message : string)
| Sent (message : string) (ticketId : option string).

(** A call of the function [fn]; [None] when the calls nest deeper than
    [depth], or when [originalLog] is not a function. *)
Fixpoint call (depth : nat) (fn : Fn) (st : State) (message : string)
  : option (list Output) :=
  match fn with
  | Native => Some [Terminal message]
  | Interceptor =>
      match depth with
      | 0 => None
      | S depth' =>
          match originalLog st with
          | None => None
          | Some original =>
              printed ← call depth' original st message;
              Some (printed ++ [Sent message (currentTicketId st)])
          end
      end
  end.

Definition log (depth : nat) (st : State) (message : string) : option (list Output) :=
  call depth (console_log st) st message.

(** The calls a client can make. *)
Inductive Op :=
| Start (ticketId : option string)
| Stop
| SetTicketId (ticketId : option string).

Definition step (st : State) (op : Op) : State :=
  match op with
  | Start ticketId => start ticketId st
  | Stop => stop st
  | SetTicketId ticketId => setTicketId ticketId st
  end.

Definition run (ops : list Op) (st : State) : State := foldl step st ops.

End LogInterceptor.

(* ===================================================================== *)
(** ** utils/copilot-models.ts: CopilotModelsManager *)
(* ===================================================================== *)

Module CopilotModelsManager.

Record CopilotModel := mkModel {
  id : string;
  name : string;
  description : option string
}.

#[global] Instance CopilotModel_eq_dec : EqDecision CopilotModel.
Proof. solve_decision. Defined.

(** A model as the SDK lists it: its [id] and [description] may be missing. *)
Record SdkModel := mkSdkModel {
  sdk_id : option string;
  sdk_name : string;
  sdk_description : option string
}.

(** The static field [cachedModels], and the number of times the SDK has
    been asked for its models. *)
Record State := mkState {
  cachedModels : option (list CopilotModel);
  fetches : nat
}.

Definition fallback : list CopilotModel :=
  [ mkModel "gpt-5" "GPT-5" (Some "Latest GPT model");
    mkModel "gpt-5-mini" "GPT-5 Mini" (Some "Fast and efficient");
    mkModel "gpt-4.1" "GPT-4.1" (Some "Fast and reliable");
    mkModel "gpt-4o" "GPT-4o" (Some "GPT-4 Optimized");
    mkModel "gpt-4" "GPT-4" (Some "Powerful reasoning");
    mkModel "claude-sonnet-4.5" "Claude Sonnet 4.5" (Some "Anthropic Claude");
    mkModel "claude-opus-4.5" "Claude Opus 4.5" (Some "Most capable Claude");
    mkModel "o1" "OpenAI o1" (Some "Reasoning model");
    mkModel "o1-mini" "OpenAI o1-mini" (Some "Faster reasoning") ].

(** [{ id: model.id || model.name, name: model.name,
       description: model.description || undefined }] *)
Definition transform (model : SdkModel) : CopilotModel :=
  mkModel (or_else (sdk_id model) (sdk_name model)) (sdk_name model)
          (if truthy (sdk_description model) then sdk_description model else None).

Section Sdk.

(** The answer of the SDK to the request number [n] (start the client, list
    the models, stop the client), or the exception one of these throws. *)
Variable listModels : nat → Res (list SdkModel).

Definition getAvailableModels (st : State) : list CopilotModel * State :=
  match cachedModels st with
  | Some models => (models, st)
  | None =>
      match listModels (fetches st) with
      | Ok models =>
          let cached := transform <$> models in
          (cached, mkState (Some cached) (S (fetches st)))
      | Throw _ => (fallback, mkState (Some fallback) (S (fetches st)))
      end
  end.

Definition clearCache (st : State) : State := mkState None (fetches st).

Definition isValidModel (modelId : string) (st : State) : bool * State :=
  let '(models, st') := getAvailableModels st in
  (existsb (λ model, bool_decide (id model = modelId)) models, st').

End Sdk.

End CopilotModelsManager.

(* ===================================================================== *)
(** ** Vocabulary of the statements, continued *)
(* ===================================================================== *)

(** The first record with a given id, the one [updateTicket] and
    [deleteTicket] act on. *)
Definition first_with (id : string) (l : list Ticket) : option Ticket :=
  snd <$> list_find (λ t, ticket_id t = id) l.

(** The counters [(current, total)] of the [processing] updates. *)
Definition progress (us : list AutopilotUpdate) : list (nat * nat) :=
  omap (λ u, match u with U_processing c n _ => Some (c, n) | _ => None end) us.

(** The updates that close the processing of a ticket: [true] for
    [ticket_completed], [false] for [ticket_failed]. *)
Definition verdicts (us : list AutopilotUpdate) : list (string * string * bool) :=
  omap (λ u, match u with
             | U_ticket_completed t _ _ => Some (t, true)
             | U_ticket_failed t _ _ _ => Some (t, false)
             | _ => None
             end) us.

(** A string holds a line feed. *)
Fixpoint has_line_feed (s : string) : bool :=
  match s with
  | EmptyString => false
  | String c r => (nat_of_ascii c =? 10) || has_line_feed r
  end.

(** The removals of a history: the forced [git worktree remove]s and the
    [fs.rmSync]s, by path. *)
Definition removals (h : list Effect) : list string :=
  omap (λ e, match e with
             | EGit _ (GitWorktreeRemoveForce p) => Some p
             | ERmSync p => Some p
             | _ => None
             end) h.

(* ===================================================================== *)
(** ** Sample worlds, continued *)
(* ===================================================================== *)

Module Scenario.

(** Two local branches in every repository. *)
Definition branches : list Effect → string → Res (list string) :=
  λ _ _, Ok ["develop"; "copilot/T-1"].

(** A Markdown file with three tickets, the second one named like the
    first up to letter case. *)
Definition parsed : list (string * string) :=
  [("T-1", "fix login bug"); ("t-1", "fix login bug again"); ("T-2", "add logout")].

Definition disk : string → ConfigManager.PathKind :=
  λ p, if bool_decide (p = "/repo") then ConfigManager.Directory
       else if bool_decide (p = "/repo/README.md") then ConfigManager.RegularFile
       else ConfigManager.Missing.

(** The SDK is down at the first request and lists one model afterwards. *)
Definition listModels : nat → Res (list CopilotModelsManager.SdkModel) :=
  λ n, match n with
       | 0 => Throw (JsError "client failed to start")
       | _ => Ok [CopilotModelsManager.mkSdkModel None "gpt-4o" None]
       end.

End Scenario.

(* ===================================================================== *)
(** ** Proof support *)
(* ===================================================================== *)

Arguments truthy : simpl never.
Arguments or_else : simpl never.
Arguments resolve : simpl never.
Arguments ensureWorktree : simpl never.
Arguments process_ticket : simpl never.
Arguments resolveTicketAutopilot : simpl never.
Arguments meanwhile : simpl never.
Arguments commits : simpl never.

Ltac unG :=
  unfold mbind, G_bind, mret, G_ret, history, perform, throw, try_catch,
         set_paths, existsSync in *; simpl in *.

Ltac unC :=
  unfold mbind, C_bind, mret, C_ret, C_throw, C_try_catch, C_finally,
         get_this, set_this in *; simpl in *.

Lemma truthy_Some s : truthy (Some s) = true ↔ s ≠ "".
Proof. unfold truthy. case_bool_decide; simpl; naive_solver. Qed.

Lemma truthy_true o : truthy o = true → ∃ s, o = Some s ∧ s ≠ "".
Proof. destruct o as [s|]; [|done]. intros H%truthy_Some. eauto. Qed.

(* ===================================================================== *)
(** ** Worktrees (GitManager) *)
(* ===================================================================== *)

Lemma worktreeExists_found E id x root :
  getAutomationPath E = Some root → root ≠ "" →
  path_join E root id ∈ paths x →
  worktreeExists E id x = (Ok (Some (path_join E root id)), x).
Proof.
  intros Hap Hroot Hin. unfold worktreeExists. rewrite Hap.
  assert (truthy (Some root) = true) as -> by by apply truthy_Some.
  unG. by rewrite bool_decide_eq_true_2.
Qed.

Lemma ensureWorktree_existing E id x root :
  path_join E root id ≠ "" →
  getAutomationPath E = Some root → root ≠ "" →
  path_join E root id ∈ paths x →
  ensureWorktree E id x = (Ok (path_join E root id), x).
Proof.
  intros Hne Hap Hroot Hin. unfold ensureWorktree. unG.
  rewrite (worktreeExists_found E id x root) by done.
  assert (truthy (Some (path_join E root id)) = true) as -> by by apply truthy_Some.
  done.
Qed.

Lemma ensureWorktree_twice E id x p x1 :
  (∀ a b, path_join E a b ≠ "") →
  ensureWorktree E id x = (Ok p, x1) → ensureWorktree E id x1 = (Ok p, x1).
Proof.
  intros Hne H. unfold ensureWorktree, worktreeExists in H. unG.
  destruct (truthy (getAutomationPath E)) eqn:Hap; simpl in H.
  - apply truthy_true in Hap as (root & Hap & Hroot).
    rewrite Hap in H. simpl in H.
    case_bool_decide as Hin; simpl in H.
    + assert (truthy (Some (path_join E root id)) = true) as Ht by by apply truthy_Some.
      rewrite Ht in H. simplify_eq. by apply ensureWorktree_existing.
    + unfold createWorktree in H. rewrite Hap in H.
      assert (truthy (Some root) = true) as Ht by by apply truthy_Some.
      rewrite Ht in H. simpl in H.
      destruct (truthy (getBaseRepositoryPath E)) eqn:Hb; simpl in H; [|by unG].
      unfold git in H. unG.
      repeat (case_match; simplify_eq/=).
      all: apply ensureWorktree_existing; simpl; [done..|set_solver].
  - unfold createWorktree in H. rewrite Hap in H. simpl in H. by unG.
Qed.

(** C3.  Ensuring a worktree is idempotent.  With [path.join] never yielding
    the empty string: when a directory exists at the conventional path
    [{automationPath}/{ticketId}], ensuring the worktree returns that path
    and leaves the world as it is, so no git command is run, and in
    particular no branch is created; and after any successful ensure, a second
    one returns the same path and changes nothing. *)
Theorem ensureWorktree_idempotent (E : Env) (ticketId : string) (x : Ext) :
  (∀ a b, path_join E a b ≠ "") →
  (∀ root, getAutomationPath E = Some root → root ≠ "" →
           path_join E root ticketId ∈ paths x →
           ensureWorktree E ticketId x = (Ok (path_join E root ticketId), x)) ∧
  (∀ p x1, ensureWorktree E ticketId x = (Ok p, x1) →
           ensureWorktree E ticketId x1 = (Ok p, x1) ∧
           trace (snd (ensureWorktree E ticketId x1)) = trace x1).
Proof.
  intros Hne. split.
  - intros root Hap Hroot Hin. by apply ensureWorktree_existing.
  - intros p x1 H. apply (ensureWorktree_twice _ _ _ _ _ Hne) in H.
    by rewrite H.
Qed.

Lemma ensureWorktree_idempotent_witness :
  ensureWorktree Sample.happy "T-1" (Sample.with_worktree "/auto/T-1")
    = (Ok "/auto/T-1", Sample.with_worktree "/auto/T-1") ∧
  fst (ensureWorktree Sample.happy "T-1"
         (snd (ensureWorktree Sample.happy "T-1" Sample.nothing_done)))
    = Ok "/auto/T-1".
Proof.
  assert (∀ a b, path_join Sample.happy a b ≠ "") as Hne.
  { intros a b. simpl. destruct a; simpl; discriminate. }
  destruct (ensureWorktree_idempotent Sample.happy "T-1"
              (Sample.with_worktree "/auto/T-1") Hne) as [Hex _].
  destruct (ensureWorktree_idempotent Sample.happy "T-1" Sample.nothing_done Hne)
    as [_ Htw].
  split.
  - apply (Hex "/auto"); [reflexivity | discriminate | ].
    simpl. apply elem_of_singleton. reflexivity.
  - destruct (ensureWorktree Sample.happy "T-1" Sample.nothing_done) as [r x1] eqn:Hrun.
    assert (r = Ok "/auto/T-1") as -> by (vm_compute in Hrun; congruence).
    simpl. destruct (Htw _ _ eq_refl) as [-> _]. reflexivity.
Defined.

Lemma removeWorktree_unconfigured E p x :
  truthy (getBaseRepositoryPath E) = false →
  removeWorktree E p x = (Throw (JsError "Base repository path not configured"), x).
Proof. intros H. unfold removeWorktree. rewrite H. done. Qed.

(** C9, as the claim states it, fails: with no base repository path
    configured [removeWorktree] throws, before it attempts anything. *)
Lemma removeWorktree_raises :
  removeWorktree (Sample.world Sample.unconfigured true true 1 true Sample.never)
    "/auto/T-1" (Sample.with_worktree "/auto/T-1")
  = (Throw (JsError "Base repository path not configured"),
     Sample.with_worktree "/auto/T-1").
Proof. apply removeWorktree_unconfigured. reflexivity. Qed.

(** C9, amended.  With a base repository path configured, [removeWorktree]
    first attempts the forced [git worktree remove]; if that succeeds nothing
    else is done; if it fails and the directory exists, the directory is
    deleted with [fs.rmSync]; the only exception that can escape is the one
    of that deletion; and after a normal return the directory is gone. *)
Theorem removeWorktree_best_effort (E : Env) (p : string) (x : Ext) :
  truthy (getBaseRepositoryPath E) = true →
  let repo := default "" (getBaseRepositoryPath E) in
  let attempt := EGit repo (GitWorktreeRemoveForce p) in
  ∃ r x',
    removeWorktree E p x = (r, x') ∧
    ((trace x' = trace x ++ [attempt]) ∨ (trace x' = trace x ++ [attempt; ERmSync p])) ∧
    (git_fails E (trace x) repo (GitWorktreeRemoveForce p) = None →
       r = Ok tt ∧ trace x' = trace x ++ [attempt]) ∧
    (is_Some (git_fails E (trace x) repo (GitWorktreeRemoveForce p)) →
       p ∈ paths x → trace x' = trace x ++ [attempt; ERmSync p]) ∧
    (∀ e, r = Throw e →
       is_Some (git_fails E (trace x) repo (GitWorktreeRemoveForce p)) ∧
       p ∈ paths x ∧ rm_fails E (trace x ++ [attempt]) p = Some e) ∧
    (r = Ok tt → p ∉ paths x').
Proof.
  intros H repo attempt. unfold removeWorktree. rewrite H. simpl.
  unfold git, rmSync. unG. fold repo.
  destruct (git_fails E (trace x) repo (GitWorktreeRemoveForce p)) eqn:Hg; simpl.
  - case_bool_decide as Hin; simpl.
    + destruct (rm_fails E _ p) eqn:Hrm; simpl.
      * eexists _, _. split; [done|]. simpl. rewrite <- !app_assoc. simpl.
        split_and!; [by right|done|done| |done].
        intros e' [= ->]. eauto.
      * eexists _, _. split; [done|]. simpl. rewrite <- !app_assoc. simpl.
        split_and!; [by right|done|done|intros ? [=]| ].
        intros _. rewrite elem_of_difference, elem_of_singleton. tauto.
    + eexists _, _. split; [done|]. simpl.
      split_and!; [by left|done|done|done|done].
  - eexists _, _. split; [done|]. simpl.
    split_and!; [by left|done| |intros ? [=]| ].
    + intros [? [=]].
    + intros _. rewrite elem_of_difference, elem_of_singleton. tauto.
Qed.

Lemma removeWorktree_best_effort_witness :
  ∃ r x',
    removeWorktree Sample.happy "/auto/T-1" (Sample.with_worktree "/auto/T-1") = (r, x') ∧
    r = Ok tt ∧ "/auto/T-1" ∉ paths x'.
Proof.
  destruct (removeWorktree_best_effort Sample.happy "/auto/T-1"
              (Sample.with_worktree "/auto/T-1") eq_refl)
    as (r & x' & Hrun & _ & Hgit & _ & _ & Hgone).
  exists r, x'. destruct (Hgit eq_refl) as [Hr _].
  split; [exact Hrun|]. split; [exact Hr|]. exact (Hgone Hr).
Defined.

(* ===================================================================== *)
(** ** The ticket store (Storage) *)
(* ===================================================================== *)




(** When the file is missing, reading it creates it, empty. *)
Lemma updateTicket_creates_missing_file id updates :
  Storage.updateTicket id updates None = Some Storage.initialConfig.
Proof. reflexivity. Qed.



(* ===================================================================== *)
(** ** Selection of the batch *)
(* ===================================================================== *)

#[local] Instance older_or_same_trans : Transitive older_or_same.
Proof. intros a b c. unfold older_or_same. lia. Qed.

Lemma insert_by_createdAt_perm t l : insert_by_createdAt t l ≡ₚ t :: l.
Proof.
  induction l as [|u l IH]; simpl; [done|].
  case_match; [|done]. rewrite IH. apply Permutation_swap.
Qed.

Lemma sort_by_createdAt_perm l : sort_by_createdAt l ≡ₚ l.
Proof.
  induction l as [|t l IH]; simpl; [done|].
  by rewrite insert_by_createdAt_perm, IH.
Qed.

Lemma insert_by_createdAt_sorted t l :
  StronglySorted older_or_same l →
  StronglySorted older_or_same (insert_by_createdAt t l).
Proof.
  induction 1 as [|u l Hl IH Hu]; simpl.
  - repeat constructor.
  - destruct (ticket_createdAt u <? ticket_createdAt t)%Z eqn:Hlt.
    + apply Z.ltb_lt in Hlt. constructor; [done|].
      rewrite insert_by_createdAt_perm. constructor; [|done].
      unfold older_or_same. lia.
    + apply Z.ltb_ge in Hlt. constructor.
      * by constructor.
      * constructor; [done|].
        eapply Forall_impl; [exact Hu|]. intros v Hv. by etrans.
Qed.

Lemma sort_by_createdAt_sorted l : StronglySorted older_or_same (sort_by_createdAt l).
Proof.
  induction l as [|t l IH]; simpl; [constructor|].
  by apply insert_by_createdAt_sorted.
Qed.

Lemma insert_by_createdAt_stable (k : Z) t l :
  filter (λ u, ticket_createdAt u = k) (insert_by_createdAt t l)
  = filter (λ u, ticket_createdAt u = k) (t :: l).
Proof.
  induction l as [|u l IH]; simpl; [done|].
  destruct (ticket_createdAt u <? ticket_createdAt t)%Z eqn:Hlt; [|done].
  apply Z.ltb_lt in Hlt.
  rewrite (filter_cons _ u), IH, !(filter_cons _ t), (filter_cons _ u).
  repeat case_decide; try done; lia.
Qed.

Lemma sort_by_createdAt_stable (k : Z) l :
  filter (λ u, ticket_createdAt u = k) (sort_by_createdAt l)
  = filter (λ u, ticket_createdAt u = k) l.
Proof.
  induction l as [|t l IH]; simpl; [done|].
  by rewrite insert_by_createdAt_stable, !filter_cons, IH.
Qed.

Lemma select_pending_elem_of t ts :
  t ∈ select_pending ts ↔ t ∈ ts ∧ ticket_status t = PENDING.
Proof.
  unfold select_pending. rewrite sort_by_createdAt_perm, list_elem_of_filter. tauto.
Qed.

Lemma select_pending_store_order ts ts' :
  ts ≡ₚ ts' →
  (∀ a b, a ∈ ts → b ∈ ts → ticket_status a = PENDING → ticket_status b = PENDING →
          ticket_createdAt a = ticket_createdAt b → a = b) →
  select_pending ts' = select_pending ts.
Proof.
  intros Hp Hinj.
  apply (StronglySorted_unique_strong older_or_same).
  - intros a b [Ha Hsa]%select_pending_elem_of [Hb Hsb]%select_pending_elem_of H1 H2.
    rewrite <- Hp in Ha. apply Hinj; try done.
    unfold older_or_same in *. lia.
  - apply sort_by_createdAt_sorted.
  - apply sort_by_createdAt_sorted.
  - unfold select_pending. rewrite !sort_by_createdAt_perm. by rewrite Hp.
Qed.

(* ===================================================================== *)
(** ** What resolving tickets does to the store *)
(* ===================================================================== *)

Lemma contents_Some c : Storage.contents (Some c) = tickets c.
Proof. done. Qed.

Lemma update_first_findIndex id u l :
  match Storage.findIndex id l with
  | Some i => match l !! i with
              | Some t => <[i := spread t u]> l
              | None => l
              end
  | None => l
  end = update_first id u l.
Proof.
  induction l as [|t l IH]; [done|].
  unfold Storage.findIndex in *. simpl.
  case_decide; simpl; [done|].
  destruct (list_find _ l) as [[i v]|]; simpl in *; by rewrite <- IH; try case_match.
Qed.

Lemma updateTicket_Some id u c :
  Storage.updateTicket id u (Some c)
  = Some (mkTicketConfig (update_first id u (tickets c)) (lastId c)).
Proof.
  unfold Storage.updateTicket. simpl. rewrite <- update_first_findIndex.
  destruct (Storage.findIndex id (tickets c)) as [i|]; [|by destruct c].
  destruct (tickets c !! i); [done|by destruct c].
Qed.

Lemma contents_updateTicket id u f :
  Storage.contents (Storage.updateTicket id u f) = update_first id u (Storage.contents f).
Proof.
  destruct f as [c|]; [by rewrite updateTicket_Some|done].
Qed.

Lemma update_first_ids id u l : ticket_id <$> update_first id u l = ticket_id <$> l.
Proof.
  induction l as [|t l IH]; csimpl; [done|].
  case_decide; csimpl; [done|]. by rewrite IH.
Qed.

Lemma update_first_other id u l i t :
  l !! i = Some t → ticket_id t ≠ id → update_first id u l !! i = Some t.
Proof.
  revert i. induction l as [|v l IH]; intros i Hi Hne; [done|].
  csimpl. destruct i as [|i]; csimpl in *.
  - simplify_eq. by rewrite decide_False.
  - case_decide; csimpl; [done|]. by apply IH.
Qed.

Lemma first_status_cons id t l :
  first_status id (t :: l)
  = if decide (ticket_id t = id) then Some (ticket_status t) else first_status id l.
Proof.
  unfold first_status. csimpl. case_decide; [done|].
  by destruct (list_find _ l) as [[??]|].
Qed.

Lemma first_status_update_same id u st l :
  id ∈ ticket_id <$> l → upd_status u = Some st →
  first_status id (update_first id u l) = Some st.
Proof.
  intros Hin Hu. induction l as [|t l IH]; csimpl in *.
  - by apply elem_of_nil in Hin.
  - case_decide as Hd.
    + rewrite first_status_cons. csimpl. rewrite decide_True by done.
      by rewrite Hu.
    + rewrite first_status_cons, decide_False by done.
      apply IH. apply elem_of_cons in Hin as [?|?]; [congruence|done].
Qed.

Lemma first_status_update_other id id' u l :
  id ≠ id' → first_status id' (update_first id u l) = first_status id' l.
Proof.
  intros Hne. induction l as [|t l IH]; csimpl; [done|].
  case_decide as Hd.
  - rewrite !first_status_cons. csimpl. rewrite !decide_False by congruence. done.
  - rewrite !first_status_cons. by rewrite IH.
Qed.

Lemma status_of_eq id f : status_of id f = first_status id (Storage.contents f).
Proof. done. Qed.

Lemma resolved_in_ids l f f' :
  resolved_in l f f' →
  ticket_id <$> Storage.contents f' = ticket_id <$> Storage.contents f.
Proof.
  induction 1 as [|t l f f' u1 u2 _ _ _ IH]; [done|].
  by rewrite IH, !contents_updateTicket, !update_first_ids.
Qed.

Lemma resolved_in_frame l f f' :
  resolved_in l f f' →
  ∀ i t, Storage.contents f !! i = Some t → ticket_id t ∉ ticket_id <$> l →
         Storage.contents f' !! i = Some t.
Proof.
  induction 1 as [|t l f f' u1 u2 _ _ _ IH]; intros i v Hi Hnot; [done|].
  rewrite fmap_cons, not_elem_of_cons in Hnot. destruct Hnot as [Hne Hnot].
  apply IH; [|done]. rewrite !contents_updateTicket.
  by do 2 (apply update_first_other; [|done]).
Qed.

Lemma resolved_in_status_other l f f' id :
  resolved_in l f f' → id ∉ ticket_id <$> l → status_of id f' = status_of id f.
Proof.
  induction 1 as [|t l f f' u1 u2 _ _ _ IH]; intros Hnot; [done|].
  rewrite fmap_cons, not_elem_of_cons in Hnot. destruct Hnot as [Hne Hnot].
  rewrite IH by done. rewrite !status_of_eq, !contents_updateTicket.
  by rewrite !first_status_update_other.
Qed.

Lemma resolved_in_status l f f' :
  resolved_in l f f' → NoDup (ticket_id <$> l) →
  ∀ t, t ∈ l → ticket_id t ∈ ticket_id <$> Storage.contents f →
       status_of (ticket_id t) f' = Some CLOSED ∨ status_of (ticket_id t) f' = Some ERROR.
Proof.
  induction 1 as [|t l f f' u1 u2 Hu1 Hu2 Hrest IH]; intros Hnd v Hv Hin.
  - by apply elem_of_nil in Hv.
  - rewrite fmap_cons in Hnd. apply NoDup_cons in Hnd as [Hnot Hnd].
    apply elem_of_cons in Hv as [->|Hv].
    + rewrite (resolved_in_status_other _ _ _ _ Hrest Hnot).
      rewrite status_of_eq, contents_updateTicket.
      destruct Hu2 as [Hu2|Hu2]; [left|right];
        (apply first_status_update_same; [|done]);
        by rewrite contents_updateTicket, update_first_ids.
    + apply IH; [done|done|].
      by rewrite !contents_updateTicket, !update_first_ids.
Qed.

(* ===================================================================== *)
(** ** The autopilot loop *)
(* ===================================================================== *)

Lemma resolveTicketAutopilot_spec E t wt c f x d :
  ∃ o x' u1 u2,
    resolveTicketAutopilot E t wt (mkCState c f x d)
    = (Ok o, mkCState c
               (Storage.updateTicket (ticket_id t) u2
                  (Storage.updateTicket (ticket_id t) u1 f)) x' d) ∧
    upd_status u1 = Some WORKING ∧
    ((o_success o = true ∧ upd_status u2 = Some CLOSED) ∨
     (o_success o = false ∧ upd_status u2 = Some ERROR)).
Proof.
  unfold resolveTicketAutopilot. unC. unfold lift, Storage_updateTicket. simpl.
  destruct (resolve E t _ x) as [[r|e] x'] eqn:Hres; simpl.
  - destruct (r_success r) eqn:Hs; simpl.
    + destruct (truthy (r_summary r)); simpl;
        eexists _, _, _, _; (split; [reflexivity|]); simpl; auto.
    + eexists _, _, _, _; (split; [reflexivity|]); simpl; auto.
  - eexists _, _, _, _; (split; [reflexivity|]); simpl; auto.
Qed.

Lemma provision_spec E l : ∀ wm c f x d,
  ∃ wm' x', provision E l wm (mkCState c f x d) = (Ok wm', mkCState c f x' d).
Proof.
  induction l as [|t l IH]; intros wm c f x d; simpl.
  - by eexists _, _.
  - unC. unfold lift. simpl.
    destruct (ensureWorktree E (ticket_id t) x) as [[p|e] x1]; simpl; apply IH.
Qed.

Lemma attempted_app us vs : attempted (us ++ vs) = attempted us ++ attempted vs.
Proof. unfold attempted. apply omap_app. Qed.


Lemma process_ticket_spec E t i total wm comp fail cp f x d :
  ∃ r ev x' u1 u2,
    process_ticket E t i total wm comp fail
      (mkCState (mkCommands cp true false true) f x d)
    = (Ok (if atr_success r then (comp ++ [r], fail) else (comp, fail ++ [r])),
       mkCState (mkCommands cp true (stop_pressed E (Resolving i)) true)
         (Storage.updateTicket (ticket_id t) u2 (Storage.updateTicket (ticket_id t) u1 f))
         x' (d ++ [U_processing (i + 1) total (id_name t); ev])) ∧
    atr_ticket r = t ∧
    upd_status u1 = Some WORKING ∧
    ((atr_success r = true ∧ upd_status u2 = Some CLOSED ∧
      ev = U_ticket_completed (id_name t) (i + 1) total) ∨
     (atr_success r = false ∧ upd_status u2 = Some ERROR ∧
      ∃ e, ev = U_ticket_failed (id_name t) e (i + 1) total)).
Proof.
  unfold process_ticket. unC. unfold lift, sendUpdate. simpl.
  destruct (resolveTicketAutopilot_spec E t (wm !! ticket_id t)
              (mkCommands cp true false true) f x
              (d ++ [U_processing (i + 1) total (id_name t)]))
    as (o & x1 & u1 & u2 & Hres & Hu1 & Hu2).
  rewrite Hres. simpl.
  unfold meanwhile, stopAutopilot. unC.
  destruct Hu2 as [[Ho Hu2]|[Ho Hu2]]; rewrite Ho.
  - eexists (mkTicketResult t true _ _ _), _, _, u1, u2.
    destruct (stop_pressed E (Resolving i)); simpl; rewrite <- !app_assoc; simpl;
      (split; [reflexivity|]); auto 10.
  - eexists (mkTicketResult t false _ _ _), _, _, u1, u2.
    destruct (stop_pressed E (Resolving i)); simpl; rewrite <- !app_assoc; simpl;
      (split; [reflexivity|]); eauto 10.
Qed.

Lemma process_tickets_spec E rest : ∀ i total wm comp fail cp stop f x d,
  ∃ comp' fail' f' x' evs,
    process_tickets E rest i total wm comp fail
      (mkCState (mkCommands cp true stop true) f x d)
    = (Ok (comp', fail'),
       mkCState (mkCommands cp true (flag_after E rest i stop) true) f' x' (d ++ evs)) ∧
    attempted evs = id_name <$> take (resolved_count E rest i stop) rest ∧
    (U_cancelled ∈ evs ↔ resolved_count E rest i stop < length rest) ∧
    atr_ticket <$> (comp' ++ fail')
      ≡ₚ (atr_ticket <$> (comp ++ fail)) ++ take (resolved_count E rest i stop) rest ∧
    resolved_in (take (resolved_count E rest i stop) rest) f f'.
Proof.
  induction rest as [|t rest IH]; intros i total wm comp fail cp stop f x d.
  - simpl. exists comp, fail, f, x, []. rewrite !app_nil_r.
    split_and!; [done|done| |done|constructor].
    split; [by intros ?%elem_of_nil|lia].
  - simpl. unC. destruct stop; simpl.
    + unfold sendUpdate. simpl.
      exists comp, fail, f, x, [U_cancelled]. rewrite !app_nil_r.
      split_and!; [done|done| |done|constructor].
      split; [lia|]. intros _. apply list_elem_of_here.
    + destruct (process_ticket_spec E t i total wm comp fail cp f x d)
        as (r & ev & x1 & u1 & u2 & Hone & Hr & Hu1 & Hcase).
      rewrite Hone. simpl.
      set (comp1 := if atr_success r then comp ++ [r] else comp).
      set (fail1 := if atr_success r then fail else fail ++ [r]).
      assert ((if atr_success r then (comp ++ [r], fail) else (comp, fail ++ [r]))
              = (comp1, fail1)) as -> by (unfold comp1, fail1; by destruct (atr_success r)).
      destruct (IH (i + 1) total wm comp1 fail1 cp (stop_pressed E (Resolving i))
                  (Storage.updateTicket (ticket_id t) u2
                     (Storage.updateTicket (ticket_id t) u1 f))
                  x1 (d ++ [U_processing (i + 1) total (id_name t); ev]))
        as (comp' & fail' & f' & x' & evs & Hrun & Hatt & Hcan & Hperm & Hstore).
      rewrite Hrun.
      exists comp', fail', f', x', ([U_processing (i + 1) total (id_name t); ev] ++ evs).
      rewrite app_assoc. split_and!.
      * done.
      * rewrite attempted_app, Hatt.
        destruct Hcase as [(_ & _ & ->)|(_ & _ & e & ->)]; done.
      * rewrite elem_of_app, Hcan. simpl. split; [|lia].
        intros [Hin|]; [|lia]. exfalso.
        destruct Hcase as [(_ & _ & ->)|(_ & _ & e & ->)];
          repeat (apply elem_of_cons in Hin as [Hin|Hin]; [discriminate|]);
          by apply elem_of_nil in Hin.
      * rewrite Hperm. unfold comp1, fail1. subst t.
        destruct (atr_success r); rewrite !fmap_app; simpl; solve_Permutation.
      * econstructor; [exact Hu1| |exact Hstore].
        destruct Hcase as [(_ & -> & _)|(_ & -> & _)]; auto.
Qed.

Lemma resolved_count_le E rest : ∀ i stop, resolved_count E rest i stop ≤ length rest.
Proof.
  induction rest as [|t rest IH]; intros i stop; simpl; [done|].
  destruct stop; [lia|]. specialize (IH (i + 1) (stop_pressed E (Resolving i))). lia.
Qed.

Lemma resolved_count_stop E rest : ∀ i k,
  1 ≤ k ≤ length rest →
  (∀ j, j < k - 1 → stop_pressed E (Resolving (i + j)) = false) →
  stop_pressed E (Resolving (i + (k - 1))) = true →
  resolved_count E rest i false = k ∧ flag_after E rest i false = true.
Proof.
  induction rest as [|t rest IH]; intros i k Hk Hbefore Hat; simpl in *; [lia|].
  destruct (decide (k = 1)) as [->|Hne].
  - replace (i + (1 - 1)) with i in Hat by lia. rewrite Hat.
    destruct rest; simpl; done.
  - assert (stop_pressed E (Resolving i) = false) as ->.
    { specialize (Hbefore 0). replace (i + 0) with i in Hbefore by lia.
      apply Hbefore. lia. }
    destruct (IH (i + 1) (k - 1)) as [-> ->].
    + lia.
    + intros j Hj. replace (i + 1 + j) with (i + S j) by lia. apply Hbefore. lia.
    + replace (i + 1 + (k - 1 - 1)) with (i + (k - 1)) by lia. done.
    + split; [lia|done].
Qed.

Lemma resolved_count_never E rest : ∀ i,
  (∀ j, stop_pressed E (Resolving j) = false) →
  resolved_count E rest i false = length rest ∧ flag_after E rest i false = false.
Proof.
  induction rest as [|t rest IH]; intros i Hno; simpl; [done|].
  rewrite Hno. destruct (IH (i + 1) Hno) as [-> ->]. done.
Qed.

Lemma meanwhile_spec E ph cp stop cb f x d :
  meanwhile E ph (mkCState (mkCommands cp true stop cb) f x d)
  = (Ok tt, mkCState (mkCommands cp true (stop || stop_pressed E ph) cb) f x d).
Proof.
  unfold meanwhile, stopAutopilot. unC.
  destruct (stop_pressed E ph), stop; reflexivity.
Qed.

Lemma autopilotMode_already_running E cb s :
  autopilotRunning (this s) = true →
  autopilotMode E cb s = (Throw (JsError "Autopilot is already running"), s).
Proof. intros H. unfold autopilotMode. unC. by rewrite H. Qed.

Lemma autopilotMode_spec E cp stop0 cb0 c x d :
  select_pending (tickets c) ≠ [] →
  ∃ r f' x' evs,
    autopilotMode E true (mkCState (mkCommands cp false stop0 cb0) (Some c) x d)
    = (Ok r, mkCState (mkCommands cp false false false) f' x'
               (d ++ [U_started (length (select_pending (tickets c)))
                               (id_name <$> select_pending (tickets c))]
                  ++ evs ++ [U_completed r])) ∧
    cancelled r = flag_after E (select_pending (tickets c)) 0 (stop_pressed E Provisioning) ∧
    attempted evs
      = id_name <$> take (resolved_count E (select_pending (tickets c)) 0
                            (stop_pressed E Provisioning))
                         (select_pending (tickets c)) ∧
    (U_cancelled ∈ evs ↔
       resolved_count E (select_pending (tickets c)) 0 (stop_pressed E Provisioning)
       < length (select_pending (tickets c))) ∧
    atr_ticket <$> (completed r ++ failed r)
      ≡ₚ take (resolved_count E (select_pending (tickets c)) 0
                 (stop_pressed E Provisioning))
              (select_pending (tickets c)) ∧
    resolved_in (take (resolved_count E (select_pending (tickets c)) 0
                         (stop_pressed E Provisioning))
                      (select_pending (tickets c)))
                (Some c) f'.
Proof.
  intros Hne. unfold autopilotMode. unC. 
  set (pend := select_pending (tickets c)) in *.
  rewrite bool_decide_eq_false_2 by (by destruct pend).
  unfold sendUpdate at 1. simpl.
  destruct (provision_spec E pend ∅ (mkCommands cp true false true) (Some c) x
              (d ++ [U_started (length pend) (id_name <$> pend)]))
    as (wm & x1 & ->).
  rewrite meanwhile_spec. simpl.
  set (flag := stop_pressed E Provisioning).
  destruct (process_tickets_spec E pend 0 (length pend) wm [] [] cp flag (Some c) x1
              (d ++ [U_started (length pend) (id_name <$> pend)]))
    as (comp & fail & f' & x' & evs & -> & Hatt & Hcan & Hperm & Hstore).
  simpl. unfold lift, sendUpdate. simpl.
  eexists _, f', x', evs. rewrite <- !app_assoc. split; [reflexivity|]. simpl.
  split_and!; done.
Qed.

Lemma autopilotMode_no_tickets E cp stop0 cb0 c x d :
  select_pending (tickets c) = [] →
  autopilotMode E true (mkCState (mkCommands cp false stop0 cb0) (Some c) x d)
  = (Ok (mkAutopilotResult [] [] 0 false),
     mkCState (mkCommands cp false false false) (Some c) x (d ++ [U_no_tickets])).
Proof.
  intros Hnil. unfold autopilotMode. unC. rewrite Hnil. reflexivity.
Qed.

Lemma select_pending_ids_NoDup ts :
  NoDup (ticket_id <$> ts) → NoDup (ticket_id <$> select_pending ts).
Proof.
  intros Hnd. unfold select_pending. rewrite sort_by_createdAt_perm.
  eapply sublist_NoDup; [exact Hnd|].
  apply fmap_sublist, sublist_filter.
Qed.

(** C5, as the claim states it, fails when the stop is requested during the
    last ticket: the loop has ended, no [cancelled] update is delivered, and
    the result still says [cancelled = true]. *)
Lemma stop_during_last_ticket_no_cancelled_event :
  ∃ r s',
    autopilotMode (Sample.stop_during 1) true
      (Sample.fresh (new_Commands (Sample.stop_during 1)) Sample.two_pending) = (Ok r, s') ∧
    cancelled r = true ∧
    attempted (delivered s') = [("T-1", "T-1"); ("T-2", "T-2")] ∧
    U_cancelled ∉ delivered s'.
Proof.
  eexists _, _. split; [vm_compute; reflexivity|].
  split; [reflexivity|]. split; [reflexivity|].
  intros H. repeat (apply elem_of_cons in H as [H|H]; [discriminate|]).
  by apply elem_of_nil in H.
Qed.

(** C5, amended.  With ticket ids unique in the store: if [stopAutopilot] is
    called on the running instance while ticket [k] of the [n] selected is
    being resolved (and not before), then exactly the tickets 1..k are
    announced and resolved, each with one entry in [completed] or [failed]
    and with status closed or error in the store; the result has
    [cancelled = true]; the records of the tickets k+1..n are untouched and
    still pending; and a [cancelled] update is delivered exactly when
    [k < n]. *)
Theorem autopilot_stop_at_boundary (E : Env) (cp stop0 cb0 : bool)
    (c : TicketConfig) (x : Ext) (d : list AutopilotUpdate) (k : nat) :
  NoDup (ticket_id <$> tickets c) →
  1 ≤ k ≤ length (select_pending (tickets c)) →
  stop_pressed E Provisioning = false →
  (∀ j, j < k - 1 → stop_pressed E (Resolving j) = false) →
  stop_pressed E (Resolving (k - 1)) = true →
  ∃ r f' x' evs,
    autopilotMode E true (mkCState (mkCommands cp false stop0 cb0) (Some c) x d)
    = (Ok r, mkCState (mkCommands cp false false false) f' x' (d ++ evs)) ∧
    cancelled r = true ∧
    atr_ticket <$> (completed r ++ failed r) ≡ₚ take k (select_pending (tickets c)) ∧
    attempted evs = id_name <$> take k (select_pending (tickets c)) ∧
    (U_cancelled ∈ evs ↔ k < length (select_pending (tickets c))) ∧
    (∀ t, t ∈ take k (select_pending (tickets c)) →
          status_of (ticket_id t) f' = Some CLOSED ∨
          status_of (ticket_id t) f' = Some ERROR) ∧
    (∀ i t, tickets c !! i = Some t → t ∈ drop k (select_pending (tickets c)) →
            Storage.contents f' !! i = Some t ∧ ticket_status t = PENDING).
Proof.
  intros Hnd Hk Hprov Hbefore Hat.
  set (pend := select_pending (tickets c)) in *.
  assert (pend ≠ []) as Hne by (destruct pend; simpl in *; [lia|done]).
  destruct (autopilotMode_spec E cp stop0 cb0 c x d Hne)
    as (r & f' & x' & evs & Hrun & Hcan & Hatt & Hev & Hperm & Hstore).
  fold pend in Hrun, Hcan, Hatt, Hev, Hperm, Hstore.
  rewrite Hprov in *.
  destruct (resolved_count_stop E pend 0 k Hk) as [Hcount Hflag]; [done..|].
  rewrite Hcount in *. rewrite Hflag in *.
  assert (NoDup (ticket_id <$> pend)) as Hndp by by apply select_pending_ids_NoDup.
  rewrite <- (take_drop k pend), fmap_app in Hndp.
  apply NoDup_app in Hndp as (Hnd1 & Hdisj & Hnd2).
  eexists r, f', x', _. split; [exact Hrun|]. split_and!.
  - done.
  - done.
  - rewrite !attempted_app. simpl. by rewrite app_nil_r.
  - rewrite <- Hev. rewrite !elem_of_app, !elem_of_cons. split; [|tauto].
    intros [[|[]%elem_of_nil]|[|[|[]%elem_of_nil]]]; done.
  - intros t Ht. eapply resolved_in_status; [exact Hstore|done|done|].
    apply list_elem_of_fmap_2.
    assert (t ∈ pend) as Htp by (eapply subseteq_take; exact Ht).
    by apply select_pending_elem_of in Htp as [? _].
  - intros i t Hi Ht. split.
    + eapply resolved_in_frame; [exact Hstore|done|].
      intros Hin. apply (Hdisj _ Hin). by apply list_elem_of_fmap_2.
    + assert (t ∈ pend) as Htp by (eapply subseteq_drop; exact Ht).
      by apply select_pending_elem_of in Htp as [_ ?].
Qed.


Lemma autopilot_stop_at_boundary_witness :
  ∃ r s',
    autopilotMode (Sample.stop_during 0) true
      (Sample.fresh (new_Commands (Sample.stop_during 0)) Sample.two_pending) = (Ok r, s') ∧
    cancelled r = true ∧
    U_cancelled ∈ delivered s' ∧
    Storage.contents (store s') !! 1 = Some (Sample.ticket "T-2" PENDING 2).
Proof.
  destruct (autopilot_stop_at_boundary (Sample.stop_during 0) true false false
              (mkTicketConfig Sample.two_pending 0) Sample.nothing_done [] 1)
    as (r & f' & x' & evs & Hrun & Hcan & _ & _ & Hev & _ & Hrest).
  - apply (bool_decide_unpack _). vm_compute. exact I.
  - vm_compute. lia.
  - reflexivity.
  - intros j Hj. lia.
  - reflexivity.
  - eexists r, _. split; [exact Hrun|]. split; [exact Hcan|]. split.
    + simpl. apply Hev. vm_compute. lia.
    + simpl. apply (Hrest 1 (Sample.ticket "T-2" PENDING 2)); [reflexivity|].
      vm_compute. apply list_elem_of_here.
Defined.

(** C4.  The batch of an autopilot run is [select_pending] of the store: it
    holds exactly the tickets that are pending when the run starts, in
    ascending [createdAt] order, tickets with the same [createdAt] keeping
    their store order; when creation times are distinct the batch does not
    depend on the order of the store at all.  The run announces
    ([processing]) the tickets of the batch in that order, one after the
    other: the tickets it attempts are always a prefix of the batch, and the
    whole batch when no stop is requested. *)
Theorem autopilot_batch_order (E : Env) (cp stop0 cb0 : bool)
    (c : TicketConfig) (x : Ext) (d : list AutopilotUpdate) :
  (∀ t, t ∈ select_pending (tickets c) ↔ t ∈ tickets c ∧ ticket_status t = PENDING) ∧
  select_pending (tickets c) ≡ₚ filter (λ t, ticket_status t = PENDING) (tickets c) ∧
  StronglySorted older_or_same (select_pending (tickets c)) ∧
  (∀ k, filter (λ t, ticket_createdAt t = k) (select_pending (tickets c))
        = filter (λ t, ticket_createdAt t = k)
                 (filter (λ t, ticket_status t = PENDING) (tickets c))) ∧
  (∀ ts',
     ts' ≡ₚ tickets c →
     (∀ a b, a ∈ tickets c → b ∈ tickets c →
             ticket_status a = PENDING → ticket_status b = PENDING →
             ticket_createdAt a = ticket_createdAt b → a = b) →
     select_pending ts' = select_pending (tickets c)) ∧
  (∃ r f' x' evs,
     autopilotMode E true (mkCState (mkCommands cp false stop0 cb0) (Some c) x d)
     = (Ok r, mkCState (mkCommands cp false false false) f' x' (d ++ evs)) ∧
     attempted evs `prefix_of` (id_name <$> select_pending (tickets c)) ∧
     ((∀ ph, stop_pressed E ph = false) →
      attempted evs = id_name <$> select_pending (tickets c) ∧
      atr_ticket <$> (completed r ++ failed r) ≡ₚ select_pending (tickets c))).
Proof.
  split_and!.
  - intros t. apply select_pending_elem_of.
  - apply sort_by_createdAt_perm.
  - apply sort_by_createdAt_sorted.
  - intros k. apply sort_by_createdAt_stable.
  - intros ts' Hp Hinj. by apply select_pending_store_order.
  - destruct (decide (select_pending (tickets c) = [])) as [Hnil|Hne].
    + rewrite autopilotMode_no_tickets by done. rewrite Hnil.
      eexists _, _, _, _. split; [reflexivity|]. simpl.
      split; [done|]. intros _. split; [done|done].
    + destruct (autopilotMode_spec E cp stop0 cb0 c x d Hne)
        as (r & f' & x' & evs & Hrun & Hcan & Hatt & Hev & Hperm & Hstore).
      eexists r, f', x', _. split; [exact Hrun|].
      rewrite !attempted_app. simpl. rewrite app_nil_r, Hatt. split.
      * exists (id_name <$> drop (resolved_count E (select_pending (tickets c)) 0
                                    (stop_pressed E Provisioning))
                                 (select_pending (tickets c))).
        by rewrite <- fmap_app, take_drop.
      * intros Hno. rewrite Hno in *.
        destruct (resolved_count_never E (select_pending (tickets c)) 0) as [Hcount _].
        { intros j. apply Hno. }
        rewrite Hcount in *. rewrite firstn_all in *. done.
Qed.

(** An instance that is inside [autopilotMode] rejects a second call, and
    nothing is touched. *)
Lemma autopilotMode_rejects_same_instance E cb c f x d :
  autopilotRunning c = true →
  autopilotMode E cb (mkCState c f x d)
  = (Throw (JsError "Autopilot is already running"), mkCState c f x d).
Proof. intros H. by apply autopilotMode_already_running. Qed.

(** The autopilot route never meets the guard: it calls [autopilotMode] on
    an instance it has just created. *)
Lemma post_autopilot_accepts E P c :
  p_store P = Some c → select_pending (tickets c) ≠ [] →
  ∃ n r P', post_autopilot E P = (JsonStarted n, Some (Ok r), P').
Proof.
  intros Hs Hne. unfold post_autopilot, call_on. simpl.
  rewrite list_lookup_middle by done. simpl.
  rewrite list_lookup_insert_eq by (rewrite length_app; simpl; lia). simpl.
  rewrite Hs. simpl.
  rewrite bool_decide_eq_false_2.
  2:{ intros Hlen. apply Hne. unfold select_pending.
      by rewrite (nil_length_inv _ Hlen). }
  rewrite list_lookup_insert_eq by (rewrite length_insert, length_app; simpl; lia).
  simpl.
  destruct (autopilotMode_spec E (sdk_constructs E) false false c (p_ext P) (p_delivered P) Hne)
    as (r & f' & x' & evs & Hrun & _).
  unfold new_Commands. rewrite Hrun. by eexists _, _, _.
Qed.

(** C8: the guard of [autopilotMode] is a field of the instance, and the
    autopilot route creates a fresh instance for every request.  In a
    process where an autopilot run is in progress, a second request is
    answered "Autopilot started": its call of [autopilotMode] does not throw,
    selects the pending tickets and goes on to resolve them. *)
Theorem second_autopilot_request_is_accepted :
  run_in_progress Sample.running_elsewhere = true ∧
  ∃ r P',
    post_autopilot Sample.happy Sample.running_elsewhere
    = (JsonStarted 2, Some (Ok r), P') ∧
    attempted (p_delivered P') = [("T-1", "T-1"); ("T-2", "T-2")].
Proof.
  split; [reflexivity|].
  eexists _, _. split; [vm_compute; reflexivity|reflexivity].
Qed.

(* ===================================================================== *)
(** ** The resolution pipeline (TicketResolverCLI.resolve) *)
(* ===================================================================== *)

Arguments removeWorktree : simpl never.
Arguments resolve_acquire : simpl never.
Arguments resolve_steps : simpl never.
Arguments resolve_catch : simpl never.
Arguments resolve_commit : simpl never.
Arguments createTestBranch : simpl never.

Lemma resolve_catch_spec E ticket o t0 wt e x :
  resolve_catch E ticket o t0 wt e x
  = (Ok (mkResult false ticket wt false None None None (Some (error_message e))
                  (clock E (trace x) - t0)%Z),
     after_cleanup E o wt x).
Proof.
  unfold resolve_catch, after_cleanup, now. unG.
  destruct (bool_decide (cleanupOnError o = Some true) && truthy wt); [|done].
  by destruct (removeWorktree E (default "" wt) x) as [[[]|?] ?].
Qed.

Lemma resolve_unfold E ticket o x :
  resolve E ticket o x
  = match resolve_acquire E ticket o x with
    | (Throw e, x1) => resolve_catch E ticket o (clock E (trace x)) None e x1
    | (Ok p, x1) =>
        match resolve_steps E ticket p (clock E (trace x)) x1 with
        | (Throw e, x2) => resolve_catch E ticket o (clock E (trace x)) (Some p) e x2
        | (Ok r, x2) => (Ok r, x2)
        end
    end.
Proof.
  unfold resolve, now. unG.
  destruct (resolve_acquire E ticket o x) as [[p|e] x1]; simpl.
  - by destruct (resolve_steps E ticket p _ x1) as [[r|e] x2].
  - by rewrite resolve_catch_spec.
Qed.

Lemma resolve_never_throws E ticket o x : ∃ r x', resolve E ticket o x = (Ok r, x').
Proof.
  rewrite resolve_unfold.
  destruct (resolve_acquire E ticket o x) as [[p|e] x1].
  - destruct (resolve_steps E ticket p _ x1) as [[r|e] x2]; [by eexists _, _|].
    rewrite resolve_catch_spec. by eexists _, _.
  - rewrite resolve_catch_spec. by eexists _, _.
Qed.

Lemma resolve_steps_agent_failure E ticket p t0 x e :
  agent_failure E ticket p (trace x) = Some e →
  resolve_steps E ticket p t0 x
  = (Throw e, mkExt (paths x) (trace x ++ [ECopilotCLI p (ticket_id ticket)])).
Proof.
  unfold agent_failure, resolve_steps, CopilotCLI_resolveTicket. unG.
  destruct (agent_run E (trace x) p ticket (getCopilotModel E)) as [r|e']; simpl.
  - destruct (cli_success r); simpl; [done|]. by intros [= <-].
  - by intros [= <-].
Qed.

Lemma resolve_acquire_validated E ticket o x p x1 :
  resolve_acquire E ticket o x = (Ok p, x1) →
  truthy (getBaseRepositoryPath E) = true.
Proof.
  unfold resolve_acquire, validateConfiguration, CopilotCLI_isAvailable. unG.
  destruct (cli_installed E (trace x)); simpl; [|done].
  destruct (truthy (getAutomationPath E)); simpl; [|done].
  destruct (truthy (getBaseRepositoryPath E)); simpl; done.
Qed.

Lemma commits_app h1 h2 : commits (h1 ++ h2) = commits h1 ++ commits h2.
Proof. apply omap_app. Qed.

Lemma createTestBranch_commits E id x :
  commits (trace (snd (createTestBranch E id x))) = commits (trace x).
Proof.
  unfold createTestBranch.
  destruct (truthy (getBaseRepositoryPath E)); simpl; [|done].
  unfold git. unG.
  repeat (case_match; simplify_eq/=);
    rewrite ?commits_app; unfold commits; simpl; by rewrite ?app_nil_r.
Qed.

Lemma removeWorktree_commits E p x :
  commits (trace (snd (removeWorktree E p x))) = commits (trace x).
Proof.
  destruct (truthy (getBaseRepositoryPath E)) eqn:Hb.
  - destruct (removeWorktree_best_effort E p x Hb) as (r & x' & Hr & Ht & _).
    rewrite Hr. simpl.
    destruct Ht as [->| ->]; rewrite commits_app; unfold commits; simpl;
      by rewrite app_nil_r.
  - by rewrite removeWorktree_unconfigured.
Qed.

Lemma after_cleanup_commits E o wt x :
  commits (trace (after_cleanup E o wt x)) = commits (trace x).
Proof.
  unfold after_cleanup. case_match; [|done]. apply removeWorktree_commits.
Qed.

Lemma generateCommitMessage_fails E diff id x e :
  sdk_session E (trace x) (CommitMessagePrompt (String.substring 0 3000 diff)) = Throw e →
  generateCommitMessage E diff id x
  = (Ok "Implement functionality for task",
     mkExt (paths x) (trace x ++ [ESdk (CommitMessagePrompt (String.substring 0 3000 diff))])).
Proof.
  intros H. unfold generateCommitMessage, sdk_ask. unG. by rewrite H.
Qed.

Lemma generateTicketSummary_commits E id diff cm x :
  ∃ html x', generateTicketSummary E id diff cm x = (Ok html, x') ∧
             commits (trace x') = commits (trace x).
Proof.
  unfold generateTicketSummary, sdk_ask. unG.
  destruct (sdk_session E (trace x) _) as [r|e]; simpl;
    eexists _, _; (split; [reflexivity|]); simpl;
    rewrite commits_app; unfold commits; simpl; by rewrite app_nil_r.
Qed.

Arguments generateTicketSummary : simpl never.
Arguments generateCommitMessage : simpl never.

Lemma resolve_commit_failed_enrichment E ticket p x :
  (∀ h cmd, git_fails E h p cmd = None) →
  (∀ h, 0 < git_status_files E h p) →
  (∀ h d, ∃ e, sdk_session E h (CommitMessagePrompt d) = Throw e) →
  let diff := git_diff_text E (trace x ++ [EGit p GitStatus]) p in
  let enriched := sdk_constructs E && truthy (Some diff) in
  let message :=
    if enriched
    then "[feat]: Implement functionality for task(" +:+ ticket_id ticket +:+ ")"
    else default_commit_message (ticket_id ticket) in
  ∃ summary x',
    resolve_commit E ticket p x
    = (Ok (true, (if enriched then Some message else None), summary), x') ∧
    commits (trace x') = commits (trace x) ++ [(p, message)].
Proof.
  intros Hgit Hfiles Hsdk diff enriched message.
  unfold resolve_commit, git_status, getWorktreeDiff, commitInWorktree, git_status, git.
  unG. rewrite !Hgit. simpl.
  rewrite bool_decide_eq_true_2 by apply Hfiles. simpl.
  rewrite !Hgit. simpl. fold diff. fold enriched.
  destruct enriched eqn:Hen; simpl.
  - destruct (Hsdk (((trace x ++ [EGit p GitStatus]) ++ [EGit p GitDiffHead]))
                (String.substring 0 3000 diff)) as [e He].
    rewrite (generateCommitMessage_fails _ _ _ _ e) by exact He. simpl.
    rewrite !Hgit. simpl.
    rewrite bool_decide_eq_false_2 by (specialize (Hfiles (((trace x ++ [EGit p GitStatus]) ++ [EGit p GitDiffHead]) ++
          [ESdk (CommitMessagePrompt (String.substring 0 3000 diff))])); lia).
    simpl. rewrite !Hgit. simpl.
    match goal with |- context [generateTicketSummary E ?a ?b ?c ?y] =>
      destruct (generateTicketSummary_commits E a b c y) as (html & x' & -> & Hc) end.
    simpl. eexists _, _. split; [reflexivity|].
    rewrite Hc. simpl. rewrite !commits_app. unfold commits. simpl.
    rewrite !app_nil_r. done.
  - rewrite !Hgit. simpl.
    rewrite bool_decide_eq_false_2 by (specialize (Hfiles ((trace x ++ [EGit p GitStatus]) ++ [EGit p GitDiffHead])); lia).
    simpl. rewrite !Hgit. simpl.
    eexists _, _. split; [reflexivity|]. simpl.
    rewrite !commits_app. unfold commits. simpl. rewrite !app_nil_r. done.
Qed.

Lemma resolve_steps_commits E ticket p t0 x r :
  agent_run E (trace x) p ticket (getCopilotModel E) = Ok r → cli_success r = true →
  ∀ hc y, resolve_commit E ticket p
            (mkExt (paths x) (trace x ++ [ECopilotCLI p (ticket_id ticket)])) = (Ok hc, y) →
  commits (trace (snd (resolve_steps E ticket p t0 x))) = commits (trace y).
Proof.
  intros Hrun Hok [[hasChanges cm] summary] y Hcommit.
  unfold resolve_steps, CopilotCLI_resolveTicket, now. unG.
  rewrite Hrun. simpl. rewrite Hok. simpl. rewrite Hcommit. simpl.
  destruct hasChanges; simpl; [|done].
  pose proof (createTestBranch_commits E (ticket_id ticket) y) as Hc.
  destruct (createTestBranch E (ticket_id ticket) y) as [[b|e] z]; simpl in *; done.
Qed.

(** C6, amended.  In a pipeline run that has acquired its worktree [p] and
    whose agent succeeded, with git working in [p], changes present, and the
    SDK session for the commit message failing: the commit still occurs, and
    it is the only one.  [generateCommitMessage] swallows the failure and
    returns "Implement functionality for task", which [resolve] wraps like a
    generated message: the commit message is
    "[feat]: Implement functionality for task({ticketId})".  The default
    "[feat]: Implement functionality for {ticketId} task" is used only when
    no enrichment is attempted, that is when the SDK could not be
    constructed or the diff is empty. *)
Theorem commit_survives_failed_enrichment
    (E : Env) (ticket : Ticket) (o : SimplifiedResolverOptions) (x : Ext)
    (p : string) (x1 : Ext) (r : CopilotCLIResult) :
  resolve_acquire E ticket o x = (Ok p, x1) →
  agent_run E (trace x1) p ticket (getCopilotModel E) = Ok r → cli_success r = true →
  (∀ h cmd, git_fails E h p cmd = None) →
  (∀ h, 0 < git_status_files E h p) →
  (∀ h d, ∃ e, sdk_session E h (CommitMessagePrompt d) = Throw e) →
  let diff :=
    git_diff_text E (trace x1 ++ [ECopilotCLI p (ticket_id ticket); EGit p GitStatus]) p in
  let message :=
    if sdk_constructs E && truthy (Some diff)
    then "[feat]: Implement functionality for task(" +:+ ticket_id ticket +:+ ")"
    else default_commit_message (ticket_id ticket) in
  ∃ res x',
    resolve E ticket o x = (Ok res, x') ∧
    commits (trace x') = commits (trace x1) ++ [(p, message)].
Proof.
  intros Hacq Hrun Hok Hgit Hfiles Hsdk diff message.
  destruct (resolve_commit_failed_enrichment E ticket p
              (mkExt (paths x1) (trace x1 ++ [ECopilotCLI p (ticket_id ticket)]))
              Hgit Hfiles Hsdk) as (summary & y & Hcommit & Hc).
  simpl in Hc, Hcommit. rewrite <- app_assoc in Hc, Hcommit. simpl in Hc, Hcommit.
  fold diff in Hc, Hcommit. fold message in Hc, Hcommit.
  pose proof (resolve_steps_commits E ticket p (clock E (trace x)) x1 r Hrun Hok _ _ Hcommit)
    as Hsteps.
  rewrite resolve_unfold, Hacq.
  destruct (resolve_steps E ticket p (clock E (trace x)) x1) as [[res|e] x2]; simpl in Hsteps.
  - exists res, x2. split; [done|]. rewrite Hsteps, Hc, commits_app.
    unfold commits at 2. simpl. by rewrite app_nil_r.
  - rewrite resolve_catch_spec. eexists _, _. split; [done|].
    rewrite after_cleanup_commits, Hsteps, Hc, commits_app.
    unfold commits at 2. simpl. by rewrite app_nil_r.
Qed.

(** C7, amended.  [resolve] never throws.  An exception raised by
    validation or by worktree acquisition gives a result with
    [success = false] and the exception's message in [error], and nothing
    more is done: no removal is attempted, whatever [cleanupOnError] says.
    An exception raised by the agent invocation (the CLI cannot be
    launched, or reports a failure) gives the same kind of result, after a
    forced [git worktree remove] of the acquired worktree has been attempted
    when [cleanupOnError] is on, which it is by default; if that command
    succeeds the directory is gone. *)
Theorem resolve_failure_semantics
    (E : Env) (ticket : Ticket) (options : option SimplifiedResolverOptions) (x : Ext) :
  (∃ r x', resolve E ticket (resolver_options options) x = (Ok r, x')) ∧
  cleanupOnError (resolver_options None) = Some true ∧
  (∀ e x1,
     resolve_acquire E ticket (resolver_options options) x = (Throw e, x1) →
     resolve E ticket (resolver_options options) x
     = (Ok (mkResult false ticket None false None None None (Some (error_message e))
                     (clock E (trace x1) - clock E (trace x))%Z), x1)) ∧
  (∀ p x1 e,
     resolve_acquire E ticket (resolver_options options) x = (Ok p, x1) →
     agent_failure E ticket p (trace x1) = Some e →
     ∃ x3,
       resolve E ticket (resolver_options options) x
       = (Ok (mkResult false ticket (Some p) false None None None (Some (error_message e))
                       (clock E (trace x1 ++ [ECopilotCLI p (ticket_id ticket)])
                        - clock E (trace x))%Z), x3) ∧
       (cleanupOnError (resolver_options options) = Some true → p ≠ "" →
        (trace x1 ++ [ECopilotCLI p (ticket_id ticket);
                      EGit (default "" (getBaseRepositoryPath E)) (GitWorktreeRemoveForce p)])
          `prefix_of` trace x3 ∧
        (git_fails E (trace x1 ++ [ECopilotCLI p (ticket_id ticket)])
                   (default "" (getBaseRepositoryPath E)) (GitWorktreeRemoveForce p) = None →
         p ∉ paths x3)) ∧
       (cleanupOnError (resolver_options options) ≠ Some true →
        x3 = mkExt (paths x1) (trace x1 ++ [ECopilotCLI p (ticket_id ticket)]))).
Proof.
  split_and!.
  - apply resolve_never_throws.
  - reflexivity.
  - intros e x1 Hacq. rewrite resolve_unfold, Hacq, resolve_catch_spec.
    unfold after_cleanup, truthy. by rewrite andb_false_r.
  - intros p x1 e Hacq Hfail.
    rewrite resolve_unfold, Hacq.
    rewrite (resolve_steps_agent_failure _ _ _ _ _ e) by done.
    rewrite resolve_catch_spec. eexists. split; [reflexivity|].
    unfold after_cleanup. split.
    + intros Hclean Hp. rewrite bool_decide_eq_true_2 by done.
      rewrite (proj2 (truthy_Some p)) by done. simpl.
      pose proof (resolve_acquire_validated _ _ _ _ _ _ Hacq) as Hb.
      destruct (removeWorktree_best_effort E p
                  (mkExt (paths x1) (trace x1 ++ [ECopilotCLI p (ticket_id ticket)])) Hb)
        as (r & x' & Hr & Ht & Hgit & _ & _ & Hgone).
      rewrite Hr. simpl in *. split.
      * destruct Ht as [->| ->]; rewrite <- app_assoc; simpl.
        -- done.
        -- exists [ERmSync p]. by rewrite <- app_assoc.
      * intros Hnone. apply Hgone. by apply Hgit.
    + intros Hno. by rewrite bool_decide_eq_false_2.
Qed.

Lemma commit_survives_failed_enrichment_witness :
  ∃ res x',
    resolve Sample.sdk_down (Sample.ticket "T-1" PENDING 1)
      (Sample.autopilot_options (Some "/auto/T-1")) (Sample.with_worktree "/auto/T-1")
    = (Ok res, x') ∧
    commits (trace x') = [("/auto/T-1", "[feat]: Implement functionality for task(T-1)")].
Proof.
  destruct (commit_survives_failed_enrichment Sample.sdk_down
              (Sample.ticket "T-1" PENDING 1)
              (Sample.autopilot_options (Some "/auto/T-1"))
              (Sample.with_worktree "/auto/T-1")
              "/auto/T-1" (Sample.with_worktree "/auto/T-1")
              (mkCLIResult true "Copilot completed" None))
    as (res & x' & Hrun & Hc).
  - reflexivity.
  - reflexivity.
  - reflexivity.
  - intros h cmd. reflexivity.
  - intros h. simpl. lia.
  - intros h d. eexists. reflexivity.
  - exists res, x'. split; [exact Hrun|exact Hc].
Defined.

(** C6, as the claim states it, fails: when the SDK session fails, the
    commit is made with a message that is not the default one. *)
Lemma failed_enrichment_message_is_not_the_default :
  ∃ res x',
    resolve Sample.sdk_down (Sample.ticket "T-1" PENDING 1)
      (Sample.autopilot_options None) Sample.nothing_done = (Ok res, x') ∧
    r_success res = true ∧
    commits (trace x') = [("/auto/T-1", "[feat]: Implement functionality for task(T-1)")] ∧
    default_commit_message "T-1" = "[feat]: Implement functionality for T-1 task" ∧
    "[feat]: Implement functionality for task(T-1)" ≠ default_commit_message "T-1".
Proof.
  eexists _, _. split; [vm_compute; reflexivity|].
  split; [reflexivity|]. split; [reflexivity|]. split; [reflexivity|]. discriminate.
Qed.

Lemma resolve_failure_semantics_witness :
  ∃ r x3,
    resolve Sample.agent_fails (Sample.ticket "T-1" PENDING 1)
      (resolver_options None) Sample.nothing_done = (Ok r, x3) ∧
    r_success r = false ∧
    r_error r = Some "Process exited with code 1" ∧
    "/auto/T-1" ∉ paths x3.
Proof.
  destruct (resolve_failure_semantics Sample.agent_fails (Sample.ticket "T-1" PENDING 1)
              None Sample.nothing_done) as (_ & Hdefault & _ & Hagent).
  destruct (resolve_acquire Sample.agent_fails (Sample.ticket "T-1" PENDING 1)
              (resolver_options None) Sample.nothing_done) as [a x1] eqn:Hacq.
  assert (a = Ok "/auto/T-1") as -> by (vm_compute in Hacq; congruence).
  destruct (Hagent "/auto/T-1" x1 (JsError "Process exited with code 1") eq_refl eq_refl)
    as (x3 & Hrun & Hclean & _).
  eexists _, x3. split; [exact Hrun|]. split; [reflexivity|]. split; [reflexivity|].
  destruct (Hclean Hdefault) as [_ Hgone]; [discriminate|].
  apply Hgone. reflexivity.
Defined.

(** C7, as the claim states it, fails: validation throws (the Copilot CLI is
    not installed) in a run that was handed a pre-provisioned worktree, with
    [cleanupOnError] on; the failure is reported, nothing is attempted, and
    the worktree is still there. *)
Lemma validation_failure_leaves_the_worktree :
  ∃ r x',
    resolve Sample.cli_missing (Sample.ticket "T-1" PENDING 1)
      (Sample.autopilot_options (Some "/auto/T-1")) (Sample.with_worktree "/auto/T-1")
    = (Ok r, x') ∧
    cleanupOnError (Sample.autopilot_options (Some "/auto/T-1")) = Some true ∧
    r_success r = false ∧
    r_error r = Some "GitHub Copilot CLI not found. Install it with: npm install -g @github/copilot-cli" ∧
    trace x' = [] ∧
    "/auto/T-1" ∈ paths x'.
Proof.
  eexists _, _. split; [vm_compute; reflexivity|].
  split; [reflexivity|]. split; [reflexivity|]. split; [reflexivity|].
  split; [reflexivity|].
  apply (bool_decide_unpack _). vm_compute. exact I.
Qed.

Lemma resolve_steps_no_changes E ticket p t0 x r :
  agent_run E (trace x) p ticket (getCopilotModel E) = Ok r → cli_success r = true →
  git_fails E (trace x ++ [ECopilotCLI p (ticket_id ticket)]) p GitStatus = None →
  git_status_files E (trace x ++ [ECopilotCLI p (ticket_id ticket)]) p = 0 →
  resolve_steps E ticket p t0 x
  = (Ok (mkResult true ticket (Some p) false None None None None
           (clock E (trace x ++ [ECopilotCLI p (ticket_id ticket); EGit p GitStatus]) - t0)%Z),
     mkExt (paths x) (trace x ++ [ECopilotCLI p (ticket_id ticket); EGit p GitStatus])).
Proof.
  intros Hrun Hok Hgit Hfiles.
  unfold resolve_steps, CopilotCLI_resolveTicket, resolve_commit, git_status, git, now.
  unG. rewrite Hrun. simpl. rewrite Hok. simpl. rewrite Hgit. simpl.
  rewrite Hfiles. simpl. by rewrite <- !app_assoc.
Qed.

(** C1, amended.  In a pipeline run under autopilot that has acquired its
    worktree [p], whose agent reports success, and in which git status
    lists no changed file: [resolve] returns [success = true] with
    [hasChanges = false] and no commit message, summary, test branch or
    error; after the agent, the git status is the last thing done, so there
    is no commit, no test branch, and the worktree is left in place;
    [resolveTicketAutopilot] reports success and the ticket ends with
    status closed. *)
Theorem no_changes_is_success
    (E : Env) (ticket : Ticket) (wt : option string)
    (c : Commands) (f : Storage.File) (x : Ext) (d : list AutopilotUpdate)
    (p : string) (x1 : Ext) (r : CopilotCLIResult) :
  resolve_acquire E ticket
    (resolver_options (Some (mkOptions (Some false) (Some true) wt))) x = (Ok p, x1) →
  agent_run E (trace x1) p ticket (getCopilotModel E) = Ok r →
  cli_success r = true →
  git_fails E (trace x1 ++ [ECopilotCLI p (ticket_id ticket)]) p GitStatus = None →
  git_status_files E (trace x1 ++ [ECopilotCLI p (ticket_id ticket)]) p = 0 →
  ∃ duration f',
    resolve E ticket (resolver_options (Some (mkOptions (Some false) (Some true) wt))) x
    = (Ok (mkResult true ticket (Some p) false None None None None duration),
       mkExt (paths x1)
             (trace x1 ++ [ECopilotCLI p (ticket_id ticket); EGit p GitStatus])) ∧
    resolveTicketAutopilot E ticket wt (mkCState c f x d)
    = (Ok (mkOutcome true None None),
       mkCState c f'
         (mkExt (paths x1)
                (trace x1 ++ [ECopilotCLI p (ticket_id ticket); EGit p GitStatus])) d) ∧
    (ticket_id ticket ∈ ticket_id <$> Storage.contents f →
     status_of (ticket_id ticket) f' = Some CLOSED).
Proof.
  intros Hacq Hrun Hok Hgit Hfiles.
  assert (resolve E ticket
            (resolver_options (Some (mkOptions (Some false) (Some true) wt))) x
          = (Ok (mkResult true ticket (Some p) false None None None None
                   (clock E (trace x1 ++ [ECopilotCLI p (ticket_id ticket); EGit p GitStatus])
                    - clock E (trace x))%Z),
             mkExt (paths x1)
                   (trace x1 ++ [ECopilotCLI p (ticket_id ticket); EGit p GitStatus])))
    as Hres.
  { rewrite resolve_unfold, Hacq.
    by rewrite (resolve_steps_no_changes _ _ _ _ _ r). }
  eexists _, _. split; [exact Hres|].
  unfold resolveTicketAutopilot. unC. unfold lift, Storage_updateTicket. simpl.
  rewrite Hres. simpl. unfold truthy. simpl.
  split; [reflexivity|].
  intros Hin. rewrite status_of_eq, contents_updateTicket.
  apply first_status_update_same; [|done].
  by rewrite contents_updateTicket, update_first_ids.
Qed.

Lemma no_changes_is_success_witness :
  ∃ f' x',
    resolveTicketAutopilot Sample.no_changes (Sample.ticket "T-1" PENDING 1)
      (Some "/auto/T-1")
      (mkCState (new_Commands Sample.no_changes)
                (Some (mkTicketConfig [Sample.ticket "T-1" PENDING 1] 0))
                (Sample.with_worktree "/auto/T-1") [])
    = (Ok (mkOutcome true None None),
       mkCState (new_Commands Sample.no_changes) f' x' []) ∧
    status_of "T-1" f' = Some CLOSED.
Proof.
  destruct (no_changes_is_success Sample.no_changes (Sample.ticket "T-1" PENDING 1)
              (Some "/auto/T-1") (new_Commands Sample.no_changes)
              (Some (mkTicketConfig [Sample.ticket "T-1" PENDING 1] 0))
              (Sample.with_worktree "/auto/T-1") []
              "/auto/T-1" (Sample.with_worktree "/auto/T-1")
              (mkCLIResult true "Copilot completed" None))
    as (duration & f' & _ & Hrun & Hstatus).
  - reflexivity.
  - reflexivity.
  - reflexivity.
  - reflexivity.
  - reflexivity.
  - exists f'. eexists. split; [exact Hrun|].
    apply Hstatus. simpl. apply list_elem_of_here.
Defined.

(** C1, as the claim states it, fails: the agent succeeds and changes
    nothing; the autopilot run counts the ticket as completed, nothing is
    committed, and the ticket is closed, not in error. *)
Lemma no_changes_ticket_ends_closed :
  ∃ r s',
    autopilotMode Sample.no_changes true
      (Sample.fresh (new_Commands Sample.no_changes) [Sample.ticket "T-1" PENDING 1])
    = (Ok r, s') ∧
    atr_success <$> completed r = [true] ∧
    failed r = [] ∧
    commits (trace (ext s')) = [] ∧
    status_of "T-1" (store s') = Some CLOSED.
Proof.
  eexists _, _. split; [vm_compute; reflexivity|].
  split; [reflexivity|]. split; [reflexivity|]. split; reflexivity.
Qed.

(* ===================================================================== *)
(** ** The status of a ticket (Commands.start) *)
(* ===================================================================== *)

(** Outside a git repository and without the Copilot SDK, [start] marks as
    working any ticket it finds that is not working already. *)
Lemma start_outside_git E idOrName c t cp cb x d e :
  idOrName ≠ "" →
  fst (Storage.getTicket idOrName (Some c)) = Some t →
  ticket_status t ≠ WORKING →
  git_fails E (trace x) (cwd E) GitStatus = Some e →
  store (snd (start E (Some idOrName)
                (mkCState (mkCommands false false cp cb) (Some c) x d)))
  = Storage.updateTicket (ticket_id t)
      (mkUpdates None (Some WORKING)
                 (Some (clock E (trace x ++ [EGit (cwd E) GitStatus])))
                 None None None None None)
      (Some c).
Proof.
  intros Hid Hget Hst Hgit. unfold start.
  rewrite (proj2 (truthy_Some idOrName)) by done. simpl.
  unC. unfold Storage_getTicket. simpl in *.
  unfold Storage.getTicket in Hget. simpl in Hget. rewrite Hget. simpl.
  rewrite bool_decide_eq_false_2 by done.
  unfold lift, isGitRepo, git_status, git, now. unG. rewrite Hgit. simpl.
  done.
Qed.

(** C2: [start] refuses only a ticket that is already working.  A closed
    ticket started outside a git repository goes from closed to working
    (and stays there, the agent failing); a closed ticket started in a
    repository whose pull fails goes from closed through branching to error;
    a ticket in error started outside a repository is put back to working. *)
Theorem start_leaves_the_allowed_edges :
  status_of "T-1"
    (store (snd (start Sample.agent_fails (Some "T-1")
                   (Sample.fresh (new_Commands Sample.agent_fails)
                      [Sample.ticket "T-1" CLOSED 1]))))
  = Some WORKING ∧
  status_of "T-1"
    (store (snd (start (Sample.in_repo false) (Some "T-1")
                   (Sample.fresh (new_Commands (Sample.in_repo false))
                      [Sample.ticket "T-1" CLOSED 1]))))
  = Some ERROR ∧
  status_of "T-1"
    (store (snd (start Sample.agent_fails (Some "T-1")
                   (Sample.fresh (new_Commands Sample.agent_fails)
                      [Sample.ticket "T-1" ERROR 1]))))
  = Some WORKING.
Proof. split; [|split]; vm_compute; reflexivity. Qed.

(** [stop] writes at most once, and then it takes a working ticket to
    stopped. *)
Lemma stop_edges E ticketId c0 c x d :
  store (snd (stop E ticketId (mkCState c0 (Some c) x d))) = Some c ∨
  ∃ t u, t ∈ tickets c ∧ ticket_status t = WORKING ∧ upd_status u = Some STOPPED ∧
         store (snd (stop E ticketId (mkCState c0 (Some c) x d)))
         = Storage.updateTicket (ticket_id t) u (Some c).
Proof.
  unfold stop. unC. destruct (truthy ticketId); simpl. 2:{ left. reflexivity. }
  unfold Storage_getTicket. simpl.
  destruct (list_find _ (tickets c)) as [[i t]|] eqn:Hf; simpl; [|by left].
  assert (t ∈ tickets c) as Hin.
  { apply list_find_Some in Hf as (Hi & _). by eapply list_elem_of_lookup_2. }
  case_bool_decide as Hst; simpl; [|by left].
  unfold lift, prompt_confirm, prompt_input, lift, Storage_updateTicket. simpl.
  repeat (case_match; simplify_eq/=); try (by left);
    right; eexists t, _; (split_and!; [done|done| |reflexivity]); done.
Qed.

(** The stop route calls [stopAutopilot] on an instance of its own: the
    instances that were there, a running one included, keep their flags. *)
Lemma post_autopilot_stop_reaches_no_run E P :
  instances (snd (post_autopilot_stop E P)) = instances P ++ [new_Commands E].
Proof.
  unfold post_autopilot_stop, call_on. simpl.
  rewrite list_lookup_middle by done. simpl.
  by rewrite list_insert_id by (by rewrite list_lookup_middle).
Qed.
